(** * PyDeck-CLI: a shallow embedding of [pydeckCLI.py] and [show_properties.py]

    The two scripts are embedded as Rocq functions.

    - Python numbers are modelled as real numbers ([R]): the formulas of
      the scripts are stated over the reals, rounding is not modelled.
      Python's true division raises [ZeroDivisionError] on a zero divisor,
      so [py_div] is fallible.
    - Exceptions are values of [exn]; a computation that may raise returns
      a [result].
    - The file system and the standard output are an explicit [World]
      threaded through the two scripts by the monad [M].
    - A Python [dict] with string keys is a [gmap string _], a Python
      [set] of strings is a [gset string]; strings are byte strings, so
      their order is the byte-wise lexicographic one.
    - The libraries the scripts delegate to are taken by their results:
      [json.load] yields the list of features, [shapely]'s [shape] yields
      a geometry with its [bounds] and [centroid], [argparse] yields the
      namespace of parsed arguments, and [pydeck]'s [to_html] stores the
      deck it is given. *)

From Stdlib Require Import Reals Lra Lia Factorial.
From stdpp Require Import gmap strings list sorting.

(** ** Exceptions and fallible computations *)

(** The exceptions the scripts can raise, together with the two error
    kinds the specification names for the numerical core
    ([EmptyInputError], [DegenerateBoundsError]); no [raise] of those two
    occurs anywhere in the scripts. *)
Inductive exn : Set :=
| FileNotFoundError
| JSONDecodeError
| ValueError
| ZeroDivisionError
| EmptyInputError
| DegenerateBoundsError.

Inductive result (A : Type) : Type :=
| Ok (a : A)
| Raise (e : exn).
Arguments Ok {A} a.
Arguments Raise {A} e.

Definition result_bind {A B : Type} (r : result A) (k : A -> result B) : result B :=
  match r with
  | Ok a => k a
  | Raise e => Raise e
  end.

Notation "x <-! r ;; k" := (result_bind r (fun x => k))
  (at level 100, r at next level, right associativity).

(** ** Python built-ins used by the scripts *)

(** [a / b] on numbers. *)
Definition py_div (a b : R) : result R :=
  if Req_dec_T b 0 then Raise ZeroDivisionError else Ok (a / b)%R.

(** [min(a, b)]: the second argument wins only when strictly smaller. *)
Definition py_min2 (a b : R) : R :=
  if Rlt_dec b a then b else a.

(** [max(a, b)]: the second argument wins only when strictly greater. *)
Definition py_max2 (a b : R) : R :=
  if Rgt_dec b a then b else a.

(** [min(iterable)]: raises [ValueError] on an empty iterable, otherwise
    scans left to right keeping the first smallest item. *)
Definition py_min (l : list R) : result R :=
  match l with
  | [] => Raise ValueError
  | v :: l' => Ok (fold_left py_min2 l' v)
  end.

(** [max(iterable)]. *)
Definition py_max (l : list R) : result R :=
  match l with
  | [] => Raise ValueError
  | v :: l' => Ok (fold_left py_max2 l' v)
  end.

(** [sum(iterable)]: starts from [0] and adds left to right. *)
Definition py_sum (l : list R) : R :=
  fold_left Rplus l 0%R.

(** [len(l)] as a number. *)
Definition py_len {A : Type} (l : list A) : R :=
  INR (length l).

(** ** pydeckCLI.py: [get_zoom_level] *)

(** A bounding box is the 4-tuple [(minx, miny, maxx, maxy)]. *)
Definition BBox : Type := (R * R * R * R)%type.

Definition get_zoom_level (bounds : BBox) (width height : R) : result R :=
  let '(minx, miny, maxx, maxy) := bounds in
  let xdiff := (maxx - minx)%R in
  let ydiff := (maxy - miny)%R in
  qx <-! py_div xdiff width ;;
  ax <-! py_div (-1 * qx)%R (2 * PI)%R ;;
  xzoom <-! py_div (ax * 360)%R (ln 2) ;;
  qy <-! py_div ydiff height ;;
  ay <-! py_div (-1 * qy)%R (2 * PI)%R ;;
  yzoom <-! py_div (ay * 360)%R (ln 2) ;;
  Ok (py_min2 xzoom yzoom).

(** ** Data model *)

(** A shapely [Point]: the attributes [.x] and [.y]. *)
Module Point.
Record t : Type := mk { x : R; y : R }.
End Point.

(** What [shape(feature['geometry'])] offers to the script: the
    attributes [.bounds] and [.centroid] of the shapely geometry. *)
Record Geometry : Type := mkGeometry {
  bounds : BBox;
  centroid : Point.t
}.

(** JSON values stored under a property name. *)
Inductive JValue : Type :=
| JNull
| JBool (b : bool)
| JNum (r : R)
| JStr (s : string).

(** A GeoJSON feature: [feature['geometry']] (already turned into a shape)
    and the dict [feature['properties']]. Both members are present and
    neither is null; documents in which one is missing or null are not
    covered. *)
Record Feature : Type := mkFeature {
  geometry : Geometry;
  properties : gmap string JValue
}.

(** The document [json.load] returns, the dict [data]: of its members the
    scripts read [data['features']]. *)
Record Document : Type := mkDocument {
  document_features : list Feature
}.

(** The keyword arguments of [pdk.Layer(...)]. *)
Module Layer.
Record t : Type := mk {
  type : option string;
  data : Document;
  get_position : list string;
  get_elevation : string;
  get_fill_color : list Z;
  get_line_color : list Z;
  auto_highlight : bool;
  elevation_scale : R;
  pickable : bool;
  elevation_range : list Z;
  stroked : bool;
  filled : bool;
  wireframe : bool;
  extruded : bool;
  coverage : R
}.
End Layer.

(** The keyword arguments of [pdk.ViewState(...)]. *)
Module ViewState.
Record t : Type := mk {
  longitude : R;
  latitude : R;
  zoom : R;
  min_zoom : Z;
  max_zoom : Z;
  pitch : R;
  bearing : R
}.
End ViewState.

(** [pdk.Deck(layers=[layer], initial_view_state=view_state)]. *)
Module Deck.
Record t : Type := mk {
  layers : list Layer.t;
  initial_view_state : ViewState.t
}.
End Deck.

(** ** The world: files and standard output *)

(** A file either holds a GeoJSON FeatureCollection ([data['features']]
    after [json.load]) or an HTML artifact written by [Deck.to_html]; the
    latter is not JSON. *)
Inductive File : Type :=
| GeoJSON (features : list Feature)
| Html (deck : Deck.t).

Record World : Type := mkWorld {
  files : gmap string File;
  stdout : list string
}.

(** Computations that read and write the world and may raise. *)
Definition M (A : Type) : Type := World -> result A * World.

Definition ret {A : Type} (a : A) : M A := fun w => (Ok a, w).

Definition bind {A B : Type} (m : M A) (k : A -> M B) : M B :=
  fun w =>
    match m w with
    | (Ok a, w') => k a w'
    | (Raise e, w') => (Raise e, w')
    end.

Definition lift {A : Type} (r : result A) : M A := fun w => (r, w).

Notation "x <- m ;; k" := (bind m (fun x => k))
  (at level 100, m at next level, right associativity).
Notation "m ;;; k" := (bind m (fun _ => k))
  (at level 100, right associativity).

(** [with open(path) as f: data = json.load(f)] followed by
    [data['features']]. *)
Definition load_features (path : string) : M (list Feature) :=
  fun w =>
    match files w !! path with
    | None => (Raise FileNotFoundError, w)
    | Some (Html _) => (Raise JSONDecodeError, w)
    | Some (GeoJSON features) => (Ok features, w)
    end.

(** [with open(path) as f: data = json.load(f)]. *)
Definition load_json (path : string) : M Document :=
  fun w =>
    match files w !! path with
    | None => (Raise FileNotFoundError, w)
    | Some (Html _) => (Raise JSONDecodeError, w)
    | Some (GeoJSON features) => (Ok (mkDocument features), w)
    end.

(** [print(line)]. *)
Definition print (line : string) : M unit :=
  fun w => (Ok tt, {| files := files w; stdout := stdout w ++ [line] |}).

(** [r.to_html(path)]. *)
Definition to_html (r : Deck.t) (path : string) : M unit :=
  fun w => (Ok tt, {| files := <[path := Html r]> (files w); stdout := stdout w |}).

(** ** pydeckCLI.py: [create_map] *)

(** Components of a [bounds] tuple: [bounds[0]] .. [bounds[3]]. *)
Definition bounds0 (b : BBox) : R := let '(minx, _, _, _) := b in minx.
Definition bounds1 (b : BBox) : R := let '(_, miny, _, _) := b in miny.
Definition bounds2 (b : BBox) : R := let '(_, _, maxx, _) := b in maxx.
Definition bounds3 (b : BBox) : R := let '(_, _, _, maxy) := b in maxy.

(** Lines 35-40: the loop appending each feature's bounds and centroid to
    [bounds_list] and [centroid_list]. *)
Definition collect (features : list Feature) : list BBox * list Point.t :=
  fold_left
    (fun (acc : list BBox * list Point.t) (feature : Feature) =>
       let geom := geometry feature in
       (fst acc ++ [bounds geom], snd acc ++ [centroid geom]))
    features ([], []).

(** Lines 43-47: the total bounding box. *)
Definition total_bounds (bounds_list : list BBox) : result BBox :=
  minx <-! py_min (map bounds0 bounds_list) ;;
  miny <-! py_min (map bounds1 bounds_list) ;;
  maxx <-! py_max (map bounds2 bounds_list) ;;
  maxy <-! py_max (map bounds3 bounds_list) ;;
  Ok (minx, miny, maxx, maxy).

(** Lines 49-51: the centroid of the data. *)
Definition mean_centroid (centroid_list : list Point.t) : result Point.t :=
  x <-! py_div (py_sum (map Point.x centroid_list)) (py_len centroid_list) ;;
  y <-! py_div (py_sum (map Point.y centroid_list)) (py_len centroid_list) ;;
  Ok (Point.mk x y).

(** Lines 34-51: bounding box and centroid of the features. *)
Definition aggregate (features : list Feature) : result (BBox * Point.t) :=
  let '(bounds_list, centroid_list) := collect features in
  bounds <-! total_bounds bounds_list ;;
  centroid <-! mean_centroid centroid_list ;;
  Ok (bounds, centroid).

Definition create_map
    (input_file : string) (layer_type : option string) (elevation_scale : R)
    (fill_color line_color : list Z) (auto_highlight pickable : bool)
    (extruded stroked filled wireframe : bool)
    (coverage pitch bearing : R) (output_file elevation_property : string)
  : M unit :=
  data <- load_json input_file ;;
  let features := document_features data in
  agg <- lift (aggregate features) ;;
  let '(bounds, centroid) := agg in
  let longitude := Point.x centroid in
  let latitude := Point.y centroid in
  zoom <- lift (get_zoom_level bounds 500 500) ;;
  let layer :=
    {| Layer.type := layer_type;
       Layer.data := data;
       Layer.get_position := ["lng"; "lat"];
       Layer.get_elevation := "properties." +:+ elevation_property;
       Layer.get_fill_color := fill_color;
       Layer.get_line_color := line_color;
       Layer.auto_highlight := auto_highlight;
       Layer.elevation_scale := elevation_scale;
       Layer.pickable := pickable;
       Layer.elevation_range := [0%Z; 3000%Z];
       Layer.stroked := stroked;
       Layer.filled := filled;
       Layer.wireframe := wireframe;
       Layer.extruded := extruded;
       Layer.coverage := coverage |} in
  let view_state :=
    {| ViewState.longitude := longitude;
       ViewState.latitude := latitude;
       ViewState.zoom := zoom;
       ViewState.min_zoom := 13;
       ViewState.max_zoom := 20;
       ViewState.pitch := pitch;
       ViewState.bearing := bearing |} in
  let r := {| Deck.layers := [layer]; Deck.initial_view_state := view_state |} in
  to_html r output_file.

(** ** pydeckCLI.py: the command line *)

(** The namespace returned by [parser.parse_args()]. *)
Module Args.
Record t : Type := mk {
  input_file : string;
  elevation_property : string;
  layer_type : option string;
  elevation_scale : R;
  fill_color : list Z;
  line_color : list Z;
  auto_highlight : bool;
  pickable : bool;
  stroked : bool;
  filled : bool;
  wireframe : bool;
  extruded : bool;
  coverage : R;
  pitch : R;
  bearing : R;
  output_file : string
}.
End Args.

(** Line 127: the positional call of [create_map]. *)
Definition pydeckCLI_main (args : Args.t) : M unit :=
  create_map (Args.input_file args) (Args.layer_type args)
    (Args.elevation_scale args) (Args.fill_color args) (Args.line_color args)
    (Args.auto_highlight args) (Args.pickable args)
    (Args.stroked args) (Args.filled args) (Args.wireframe args)
    (Args.extruded args)
    (Args.coverage args) (Args.pitch args) (Args.bearing args)
    (Args.output_file args) (Args.elevation_property args).

(** ** show_properties.py *)

(** Lines 8-10: the set of property names, grown feature by feature with
    [properties.update(feature['properties'].keys())]. *)
Definition property_set (features : list Feature) : gset string :=
  fold_left (fun (acc : gset string) (feature : Feature) =>
               acc ∪ dom (properties feature))
            features ∅.

(** [sorted(properties)] on a set of strings. *)
Definition py_sorted (s : gset string) : list string :=
  merge_sort String.le (elements s).

(** The names [show_properties] lists, in the order it lists them. *)
Definition list_properties (features : list Feature) : list string :=
  py_sorted (property_set features).

(** [for property in sorted(properties): print(f'  - {property}')]. *)
Fixpoint print_each (names : list string) : M unit :=
  match names with
  | [] => ret tt
  | property :: rest => print ("  - " +:+ property) ;;; print_each rest
  end.

Definition show_properties (input_file : string) : M unit :=
  features <- load_features input_file ;;
  let properties := property_set features in
  print "Available properties:" ;;;
  print_each (py_sorted properties).

(** The namespace of [show_properties.py]'s parser. *)
Module PArgs.
Record t : Type := mk {
  input_file : string;
  properties : bool
}.
End PArgs.

(** Lines 21-22. *)
Definition show_properties_main (args : PArgs.t) : M unit :=
  if PArgs.properties args then show_properties (PArgs.input_file args)
  else ret tt.

(** ** pydeckCLI.py: the argument parser *)

(** [bool(s)] on a string, the conversion [type=bool] applies to the text
    of an option: only the empty string is false. *)
Definition py_bool (s : string) : bool :=
  match s with
  | EmptyString => false
  | String _ _ => true
  end.

(** What the command line supplies, option by option: [None] when the
    option is absent. The options declared with [type=float] and
    [type=int] are taken after that conversion, those declared with
    [type=bool] and [type=str] as the text given. Command lines that do
    not fit this shape (a path missing, a colour without three numbers,
    an unknown option) are not covered. *)
Module Raw.
Record t : Type := mk {
  input_file : string;
  elevation_property : option string;
  layer_type : option string;
  elevation_scale : option R;
  fill_color : option (Z * Z * Z);
  line_color : option (Z * Z * Z);
  auto_highlight : option string;
  pickable : option string;
  stroked : option string;
  filled : option string;
  wireframe : option string;
  extruded : option string;
  coverage : option R;
  pitch : option R;
  bearing : option R;
  output_file : string
}.
End Raw.

(** An option declared with [default=d, type=bool]. *)
Definition bool_option (d : bool) (given : option string) : bool :=
  match given with
  | None => d
  | Some text => py_bool text
  end.

(** An option declared with [nargs=3, type=int] and a default list. *)
Definition color_option (d : list Z) (given : option (Z * Z * Z)) : list Z :=
  match given with
  | None => d
  | Some (r, g, b) => [r; g; b]
  end.

(** Lines 91-125: the namespace [parser.parse_args()] builds, or [None]
    when the parser rejects the command line and exits: a [--layer-type]
    outside [choices=['GeoJsonLayer']]. *)
Definition parse_args (raw : Raw.t) : option Args.t :=
  match Raw.layer_type raw with
  | Some choice =>
      if String.eqb choice "GeoJsonLayer" then Some (Some choice) else None
  | None => Some None
  end ≫= fun layer_type =>
  Some
    {| Args.input_file := Raw.input_file raw;
       Args.elevation_property := default "elevation" (Raw.elevation_property raw);
       Args.layer_type := layer_type;
       Args.elevation_scale := default 1%R (Raw.elevation_scale raw);
       Args.fill_color := color_option [255; 0; 0]%Z (Raw.fill_color raw);
       Args.line_color := color_option [0; 0; 255]%Z (Raw.line_color raw);
       Args.auto_highlight := bool_option true (Raw.auto_highlight raw);
       Args.pickable := bool_option true (Raw.pickable raw);
       Args.stroked := bool_option false (Raw.stroked raw);
       Args.filled := bool_option true (Raw.filled raw);
       Args.wireframe := bool_option true (Raw.wireframe raw);
       Args.extruded := bool_option true (Raw.extruded raw);
       Args.coverage := default 1%R (Raw.coverage raw);
       Args.pitch := default 45%R (Raw.pitch raw);
       Args.bearing := default 0%R (Raw.bearing raw);
       Args.output_file := Raw.output_file raw |}.

Section Notions.
Local Open Scope R_scope.

(** ** Notions used to state the properties *)

(** The zoom along one axis, as the formula of the specification writes
    it: [-(diff / size) / (2π) * 360 / ln(2)]. *)
Definition axis_zoom (diff size : R) : R :=
  - (diff / size) / (2 * PI) * 360 / ln 2.

(** [m] is the least element of [l]. *)
Definition is_minimum (m : R) (l : list R) : Prop :=
  m ∈ l /\ Forall (fun v => m <= v) l.

(** [m] is the greatest element of [l]. *)
Definition is_maximum (m : R) (l : list R) : Prop :=
  m ∈ l /\ Forall (fun v => v <= m) l.

(** The sum of a list, by structural recursion. *)
Fixpoint Rsum (l : list R) : R :=
  match l with
  | [] => 0
  | v :: l' => v + Rsum l'
  end.

(** The bounds and the centroids of the features, in input order. *)
Definition bounds_of (features : list Feature) : list BBox :=
  map (fun feature => bounds (geometry feature)) features.

Definition centroids_of (features : list Feature) : list Point.t :=
  map (fun feature => centroid (geometry feature)) features.

(** The deck lines 59-87 assemble from the parameters of [create_map], the
    loaded document (given by its features), the centroid and the zoom. *)
Definition assembled_deck
    (layer_type : option string) (elevation_scale : R)
    (fill_color line_color : list Z) (auto_highlight pickable : bool)
    (extruded stroked filled wireframe : bool)
    (coverage pitch bearing : R) (elevation_property : string)
    (features : list Feature) (centroid : Point.t) (zoom : R) : Deck.t :=
  {| Deck.layers :=
       [ {| Layer.type := layer_type;
            Layer.data := mkDocument features;
            Layer.get_position := ["lng"; "lat"];
            Layer.get_elevation := "properties." +:+ elevation_property;
            Layer.get_fill_color := fill_color;
            Layer.get_line_color := line_color;
            Layer.auto_highlight := auto_highlight;
            Layer.elevation_scale := elevation_scale;
            Layer.pickable := pickable;
            Layer.elevation_range := [0%Z; 3000%Z];
            Layer.stroked := stroked;
            Layer.filled := filled;
            Layer.wireframe := wireframe;
            Layer.extruded := extruded;
            Layer.coverage := coverage |} ];
     Deck.initial_view_state :=
       {| ViewState.longitude := Point.x centroid;
          ViewState.latitude := Point.y centroid;
          ViewState.zoom := zoom;
          ViewState.min_zoom := 13;
          ViewState.max_zoom := 20;
          ViewState.pitch := pitch;
          ViewState.bearing := bearing |} |}.

(** Lines 28-56 on their own: the bounding box, the centroid and the zoom
    [create_map] computes from the input file. *)
Definition analysis (input_file : string) : M (BBox * Point.t * R) :=
  features <- load_features input_file ;;
  agg <- lift (aggregate features) ;;
  zoom <- lift (get_zoom_level (fst agg) 500 500) ;;
  ret (agg, zoom).

(** Terms of the power series of [exp x], and of the alternating series of
    [exp (- y)]. *)
Definition exp_term (x : R) (i : nat) : R := / INR (fact i) * x ^ i.
Definition exp_alt_term (y : R) (i : nat) : R := y ^ i / INR (fact i).

(** ** Sample inputs *)

(** Two sample features: unit square and a 3 x 1 rectangle. *)
Definition sample_square : Feature :=
  {| geometry := {| bounds := (0, 0, 1, 1); centroid := Point.mk (1 / 2) (1 / 2) |};
     properties := ∅ |}.

Definition sample_rectangle : Feature :=
  {| geometry := {| bounds := (2, 3, 5, 4); centroid := Point.mk (7 / 2) (7 / 2) |};
     properties := ∅ |}.

(** A file with the two features of the specification's example. *)
Definition sample_collection : list Feature :=
  [ mkFeature (geometry sample_square) {[ "a" := JNum 1; "b" := JNum 2 ]};
    mkFeature (geometry sample_rectangle) {[ "b" := JNum 3; "c" := JNum 4 ]} ].

Definition sample_world : World :=
  {| files := {[ "input.geojson" := GeoJSON sample_collection ]}; stdout := [] |}.

(** The argparse defaults, with the two positional paths. *)
Definition sample_args : Args.t :=
  {| Args.input_file := "input.geojson";
     Args.elevation_property := "elevation";
     Args.layer_type := Some "GeoJsonLayer";
     Args.elevation_scale := 1;
     Args.fill_color := [255; 0; 0]%Z;
     Args.line_color := [0; 0; 255]%Z;
     Args.auto_highlight := true;
     Args.pickable := true;
     Args.stroked := false;
     Args.filled := true;
     Args.wireframe := true;
     Args.extruded := true;
     Args.coverage := 1;
     Args.pitch := 45;
     Args.bearing := 0;
     Args.output_file := "output.html" |}.

(** A world whose only file is an input without features. *)
Definition empty_collection_world : World :=
  {| files := {[ "input.geojson" := GeoJSON [] ]}; stdout := [] |}.

End Notions.

(** A world in which a rendered page lies at [output.html], next to the
    collection at [input.geojson]. *)
Definition rendered_world : World :=
  {| files :=
       <["output.html" :=
           Html {| Deck.layers := [];
                   Deck.initial_view_state :=
                     {| ViewState.longitude := 0; ViewState.latitude := 0;
                        ViewState.zoom := 0; ViewState.min_zoom := 13;
                        ViewState.max_zoom := 20; ViewState.pitch := 45;
                        ViewState.bearing := 0 |} |}]>
         (files sample_world);
     stdout := [] |}.

(** Features without any property: the two sample shapes, whose dicts are
    empty. *)
Definition bare_collection : list Feature := [sample_square; sample_rectangle].

Definition bare_world : World :=
  {| files := {[ "input.geojson" := GeoJSON bare_collection ]}; stdout := [] |}.

(** A command line that gives the two paths and no option. *)
Definition bare_command_line (input_file output_file : string) : Raw.t :=
  {| Raw.input_file := input_file;
     Raw.elevation_property := None;
     Raw.layer_type := None;
     Raw.elevation_scale := None;
     Raw.fill_color := None;
     Raw.line_color := None;
     Raw.auto_highlight := None;
     Raw.pickable := None;
     Raw.stroked := None;
     Raw.filled := None;
     Raw.wireframe := None;
     Raw.extruded := None;
     Raw.coverage := None;
     Raw.pitch := None;
     Raw.bearing := None;
     Raw.output_file := output_file |}.

(** The command line of the comment that closes [pydeckCLI.py]. *)
Definition documented_command_line : Raw.t :=
  {| Raw.input_file := "input.geojson";
     Raw.elevation_property := Some "elevation";
     Raw.layer_type := Some "GeoJsonLayer";
     Raw.elevation_scale := Some 1%R;
     Raw.fill_color := Some (85, 85, 85)%Z;
     Raw.line_color := Some (250, 250, 250)%Z;
     Raw.auto_highlight := Some "True";
     Raw.pickable := Some "True";
     Raw.stroked := Some "False";
     Raw.filled := Some "True";
     Raw.wireframe := Some "False";
     Raw.extruded := Some "True";
     Raw.coverage := None;
     Raw.pitch := Some 45%R;
     Raw.bearing := Some 0%R;
     Raw.output_file := "output.html" |}.

(** * Properties *)

(** ** Python built-ins *)

Section Builtins.
Local Open Scope R_scope.

Lemma py_div_nonzero (a b : R) : b <> 0 -> py_div a b = Ok (a / b).
Proof. intros Hb. unfold py_div. destruct (Req_dec_T b 0); [contradiction | reflexivity]. Qed.

Lemma py_div_zero (a : R) : py_div a 0 = Raise ZeroDivisionError.
Proof. unfold py_div. destruct (Req_dec_T 0 0) as [_ | Hne]; [reflexivity | now destruct Hne]. Qed.

Lemma py_min2_Rmin (a b : R) : py_min2 a b = Rmin a b.
Proof.
  unfold py_min2, Rmin.
  destruct (Rlt_dec b a), (Rle_dec a b); lra.
Qed.

Lemma py_max2_Rmax (a b : R) : py_max2 a b = Rmax a b.
Proof.
  unfold py_max2, Rmax.
  destruct (Rgt_dec b a), (Rle_dec a b); lra.
Qed.

Lemma two_PI_neq0 : 2 * PI <> 0.
Proof. pose proof PI_RGT_0. lra. Qed.

Lemma ln2_pos : 0 < ln 2.
Proof. rewrite <- ln_1. apply ln_increasing; lra. Qed.

Lemma ln2_neq0 : ln 2 <> 0.
Proof. pose proof ln2_pos. lra. Qed.

End Builtins.

(** ** [get_zoom_level] *)

Section Zoom.
Local Open Scope R_scope.

(** On non-zero pixel dimensions the function returns, without raising,
    the smaller of the two axis zooms. *)
Lemma get_zoom_level_defined (minx miny maxx maxy width height : R) :
  width <> 0 -> height <> 0 ->
  get_zoom_level (minx, miny, maxx, maxy) width height
  = Ok (Rmin (axis_zoom (maxx - minx) width) (axis_zoom (maxy - miny) height)).
Proof.
  intros Hw Hh. unfold get_zoom_level.
  rewrite (py_div_nonzero _ width Hw). cbn [result_bind].
  rewrite (py_div_nonzero _ (2 * PI) two_PI_neq0). cbn [result_bind].
  rewrite (py_div_nonzero _ (ln 2) ln2_neq0). cbn [result_bind].
  rewrite (py_div_nonzero _ height Hh). cbn [result_bind].
  rewrite (py_div_nonzero _ (2 * PI) two_PI_neq0). cbn [result_bind].
  rewrite (py_div_nonzero _ (ln 2) ln2_neq0). cbn [result_bind].
  rewrite py_min2_Rmin. unfold axis_zoom.
  f_equal. f_equal; f_equal; f_equal; f_equal; lra.
Qed.

Lemma get_zoom_level_width0 (b : BBox) (height : R) :
  get_zoom_level b 0 height = Raise ZeroDivisionError.
Proof.
  destruct b as [[[minx miny] maxx] maxy]. unfold get_zoom_level.
  now rewrite py_div_zero.
Qed.

Lemma get_zoom_level_height0 (b : BBox) (width : R) :
  get_zoom_level b width 0 = Raise ZeroDivisionError.
Proof.
  destruct b as [[[minx miny] maxx] maxy]. unfold get_zoom_level.
  destruct (Req_dec_T width 0) as [-> | Hw].
  - now rewrite py_div_zero.
  - rewrite (py_div_nonzero _ width Hw). cbn [result_bind].
    rewrite (py_div_nonzero _ (2 * PI) two_PI_neq0). cbn [result_bind].
    rewrite (py_div_nonzero _ (ln 2) ln2_neq0). cbn [result_bind].
    now rewrite py_div_zero.
Qed.

(** The scale factor [360 / (2π ln 2)] is positive. *)
Lemma zoom_scale_pos : 0 < 360 / (2 * PI * ln 2).
Proof.
  apply Rdiv_lt_0_compat; [lra |].
  apply Rmult_lt_0_compat; [pose proof PI_RGT_0; lra | apply ln2_pos].
Qed.

Lemma axis_zoom_scale (diff size : R) :
  size <> 0 -> axis_zoom diff size = - (diff / size) * (360 / (2 * PI * ln 2)).
Proof.
  intros Hs. unfold axis_zoom. field.
  repeat split; first [apply ln2_neq0 | apply PI_neq0 | exact Hs].
Qed.

Lemma axis_zoom_0 (size : R) : size <> 0 -> axis_zoom 0 size = 0.
Proof. intros Hs. rewrite axis_zoom_scale by exact Hs. unfold Rdiv at 1. lra. Qed.

Lemma axis_zoom_nonpos (diff size : R) :
  0 <= diff -> 0 < size -> axis_zoom diff size <= 0.
Proof.
  intros Hd Hs. rewrite axis_zoom_scale by lra.
  pose proof zoom_scale_pos as Hk.
  assert (0 <= diff / size).
  { unfold Rdiv. apply Rmult_le_pos; [assumption |].
    left. now apply Rinv_0_lt_compat. }
  nra.
Qed.

End Zoom.

(** ** [min], [max] and [sum] over a list *)

Section Extrema.
Local Open Scope R_scope.

Lemma fold_min_spec (l : list R) (a : R) :
  is_minimum (fold_left py_min2 l a) (a :: l).
Proof.
  revert a. induction l as [| v l IH]; intros a; cbn [fold_left].
  - split; [left | repeat constructor; lra].
  - destruct (IH (py_min2 a v)) as [Hin Hall].
    set (m := fold_left py_min2 l (py_min2 a v)) in *.
    apply Forall_cons in Hall as [Hle Hall].
    assert (Hav : py_min2 a v = a /\ a <= v \/ py_min2 a v = v /\ v <= a).
    { unfold py_min2. destruct (Rlt_dec v a); [right | left]; split; lra. }
    split.
    + apply elem_of_cons in Hin as [Heq | Hin].
      * rewrite Heq. destruct Hav as [[E _] | [E _]]; rewrite E.
        -- apply list_elem_of_here.
        -- apply list_elem_of_further, list_elem_of_here.
      * by do 2 apply list_elem_of_further.
    + destruct Hav as [[E Hc] | [E Hc]]; rewrite E in Hle;
        repeat (apply Forall_cons; split); try exact Hall; lra.
Qed.

Lemma fold_max_spec (l : list R) (a : R) :
  is_maximum (fold_left py_max2 l a) (a :: l).
Proof.
  revert a. induction l as [| v l IH]; intros a; cbn [fold_left].
  - split; [left | repeat constructor; lra].
  - destruct (IH (py_max2 a v)) as [Hin Hall].
    set (m := fold_left py_max2 l (py_max2 a v)) in *.
    apply Forall_cons in Hall as [Hle Hall].
    assert (Hav : py_max2 a v = a /\ v <= a \/ py_max2 a v = v /\ a <= v).
    { unfold py_max2. destruct (Rgt_dec v a); [right | left]; split; lra. }
    split.
    + apply elem_of_cons in Hin as [Heq | Hin].
      * rewrite Heq. destruct Hav as [[E _] | [E _]]; rewrite E.
        -- apply list_elem_of_here.
        -- apply list_elem_of_further, list_elem_of_here.
      * by do 2 apply list_elem_of_further.
    + destruct Hav as [[E Hc] | [E Hc]]; rewrite E in Hle;
        repeat (apply Forall_cons; split); try exact Hall; lra.
Qed.

Lemma py_min_spec (l : list R) :
  l <> [] -> exists m, py_min l = Ok m /\ is_minimum m l.
Proof.
  destruct l as [| v l]; [congruence | intros _].
  eexists; split; [reflexivity | apply fold_min_spec].
Qed.

Lemma py_max_spec (l : list R) :
  l <> [] -> exists m, py_max l = Ok m /\ is_maximum m l.
Proof.
  destruct l as [| v l]; [congruence | intros _].
  eexists; split; [reflexivity | apply fold_max_spec].
Qed.

Lemma is_minimum_unique (m m' : R) (l : list R) :
  is_minimum m l -> is_minimum m' l -> m = m'.
Proof.
  intros [Hin Hall] [Hin' Hall'].
  rewrite Forall_forall in Hall, Hall'.
  specialize (Hall _ Hin'). specialize (Hall' _ Hin). lra.
Qed.

Lemma is_maximum_unique (m m' : R) (l : list R) :
  is_maximum m l -> is_maximum m' l -> m = m'.
Proof.
  intros [Hin Hall] [Hin' Hall'].
  rewrite Forall_forall in Hall, Hall'.
  specialize (Hall _ Hin'). specialize (Hall' _ Hin). lra.
Qed.

Lemma is_minimum_perm (m : R) (l l' : list R) :
  l ≡ₚ l' -> is_minimum m l -> is_minimum m l'.
Proof. intros Hp [Hin Hall]. split; by rewrite <- Hp. Qed.

Lemma is_maximum_perm (m : R) (l l' : list R) :
  l ≡ₚ l' -> is_maximum m l -> is_maximum m l'.
Proof. intros Hp [Hin Hall]. split; by rewrite <- Hp. Qed.

Lemma fold_plus_Rsum (l : list R) (a : R) : fold_left Rplus l a = a + Rsum l.
Proof.
  revert a. induction l as [| v l IH]; intros a; cbn [fold_left Rsum].
  - lra.
  - rewrite IH. lra.
Qed.

Lemma py_sum_Rsum (l : list R) : py_sum l = Rsum l.
Proof. unfold py_sum. rewrite fold_plus_Rsum. lra. Qed.

Lemma py_len_nonzero {A : Type} (l : list A) : l <> [] -> py_len l <> 0.
Proof.
  intros Hl. unfold py_len. apply not_0_INR.
  destruct l; [congruence | discriminate].
Qed.

End Extrema.

(** ** Aggregation in [create_map] *)

Section Aggregation.
Local Open Scope R_scope.

Lemma collect_from (features : list Feature) (bl : list BBox) (cl : list Point.t) :
  fold_left
    (fun (acc : list BBox * list Point.t) (feature : Feature) =>
       let geom := geometry feature in
       (fst acc ++ [bounds geom], snd acc ++ [centroid geom]))
    features (bl, cl)
  = (bl ++ bounds_of features, cl ++ centroids_of features).
Proof.
  revert bl cl. induction features as [| f fs IH]; intros bl cl; cbn.
  - by rewrite !app_nil_r.
  - rewrite IH. by rewrite <- !app_assoc.
Qed.

Lemma collect_maps (features : list Feature) :
  collect features = (bounds_of features, centroids_of features).
Proof. unfold collect. by rewrite collect_from. Qed.

(** The total bounding box exists for a non-empty list of bounds and is
    made of the component-wise extrema. *)
Lemma total_bounds_spec (bl : list BBox) :
  bl <> [] ->
  exists minx miny maxx maxy,
    total_bounds bl = Ok (minx, miny, maxx, maxy)
    /\ is_minimum minx (map bounds0 bl)
    /\ is_minimum miny (map bounds1 bl)
    /\ is_maximum maxx (map bounds2 bl)
    /\ is_maximum maxy (map bounds3 bl).
Proof.
  intros Hne.
  assert (Hm : forall g : BBox -> R, map g bl <> []).
  { intros g. destruct bl; [congruence | discriminate]. }
  destruct (py_min_spec _ (Hm bounds0)) as (minx & E0 & H0).
  destruct (py_min_spec _ (Hm bounds1)) as (miny & E1 & H1).
  destruct (py_max_spec _ (Hm bounds2)) as (maxx & E2 & H2).
  destruct (py_max_spec _ (Hm bounds3)) as (maxy & E3 & H3).
  exists minx, miny, maxx, maxy.
  unfold total_bounds. rewrite E0, E1, E2, E3. cbn. auto.
Qed.

Lemma total_bounds_nil : total_bounds [] = Raise ValueError.
Proof. reflexivity. Qed.

(** The centroid of the data exists for a non-empty list of centroids and
    is the plain mean of the coordinates. *)
Lemma mean_centroid_spec (cl : list Point.t) :
  cl <> [] ->
  mean_centroid cl
  = Ok (Point.mk (Rsum (map Point.x cl) / INR (length cl))
                 (Rsum (map Point.y cl) / INR (length cl))).
Proof.
  intros Hne. unfold mean_centroid.
  rewrite !(py_div_nonzero _ _ (py_len_nonzero cl Hne)). cbn.
  by rewrite !py_sum_Rsum.
Qed.

Lemma bounds_of_nonempty (features : list Feature) :
  features <> [] -> bounds_of features <> [].
Proof. destruct features; [congruence | discriminate]. Qed.

Lemma centroids_of_nonempty (features : list Feature) :
  features <> [] -> centroids_of features <> [].
Proof. destruct features; [congruence | discriminate]. Qed.

(** [aggregate] on a non-empty list of features: it returns, and what it
    returns. *)
Lemma aggregate_spec (features : list Feature) :
  features <> [] ->
  exists minx miny maxx maxy,
    aggregate features
    = Ok ((minx, miny, maxx, maxy),
          Point.mk
            (Rsum (map Point.x (centroids_of features)) / INR (length features))
            (Rsum (map Point.y (centroids_of features)) / INR (length features)))
    /\ is_minimum minx (map bounds0 (bounds_of features))
    /\ is_minimum miny (map bounds1 (bounds_of features))
    /\ is_maximum maxx (map bounds2 (bounds_of features))
    /\ is_maximum maxy (map bounds3 (bounds_of features)).
Proof.
  intros Hne.
  destruct (total_bounds_spec _ (bounds_of_nonempty _ Hne))
    as (minx & miny & maxx & maxy & E & H).
  exists minx, miny, maxx, maxy. split; [| exact H].
  unfold aggregate. rewrite collect_maps, E. cbn [result_bind].
  rewrite (mean_centroid_spec _ (centroids_of_nonempty _ Hne)). cbn [result_bind].
  assert (Hlen : length (centroids_of features) = length features)
    by apply length_map.
  by rewrite Hlen.
Qed.

Lemma aggregate_nil : aggregate [] = Raise ValueError.
Proof. reflexivity. Qed.

End Aggregation.

(** ** show_properties.py *)

Section Properties.

Lemma property_set_from (features : list Feature) (acc : gset string) (k : string) :
  k ∈ fold_left (fun (acc : gset string) (feature : Feature) =>
                   acc ∪ dom (properties feature)) features acc
  <-> k ∈ acc \/ exists feature, feature ∈ features /\ k ∈ dom (properties feature).
Proof.
  revert acc. induction features as [| f fs IH]; intros acc; cbn [fold_left].
  - split; [by left | intros [H | (f & Hf & _)]; [done | by apply elem_of_nil in Hf]].
  - rewrite IH, elem_of_union. split.
    + intros [[H | H] | (f' & Hf' & Hk)].
      * by left.
      * right. exists f. split; [apply list_elem_of_here | done].
      * right. exists f'. split; [by apply list_elem_of_further | done].
    + intros [H | (f' & Hf' & Hk)].
      * by left; left.
      * apply elem_of_cons in Hf' as [-> | Hf'].
        -- by left; right.
        -- right. by exists f'.
Qed.

(** The set built by the loop is the union of the features' key sets. *)
Lemma elem_of_property_set (features : list Feature) (k : string) :
  k ∈ property_set features
  <-> exists feature, feature ∈ features /\ k ∈ dom (properties feature).
Proof.
  unfold property_set. rewrite property_set_from. split.
  - intros [H | H]; [by apply not_elem_of_empty in H | done].
  - by right.
Qed.

Lemma py_sorted_perm (s : gset string) : py_sorted s ≡ₚ elements s.
Proof. apply merge_sort_Permutation. Qed.

Lemma elem_of_py_sorted (s : gset string) (k : string) : k ∈ py_sorted s <-> k ∈ s.
Proof. by rewrite py_sorted_perm, elem_of_elements. Qed.

Lemma py_sorted_NoDup (s : gset string) : NoDup (py_sorted s).
Proof. rewrite py_sorted_perm. apply NoDup_elements. Qed.

Lemma py_sorted_sorted (s : gset string) : StronglySorted String.le (py_sorted s).
Proof. apply (StronglySorted_merge_sort String.le). Qed.

(** A feature without properties leaves the set unchanged. *)
Lemma property_set_skip (pre post : list Feature) (f : Feature) :
  properties f = ∅ ->
  property_set (pre ++ f :: post) = property_set (pre ++ post).
Proof.
  intros Hf. apply set_eq. intros k. rewrite !elem_of_property_set.
  split; intros (f' & Hin & Hk); exists f'; (split; [| done]).
  - apply elem_of_app in Hin as [Hin | Hin]; [apply elem_of_app; by left |].
    apply elem_of_cons in Hin as [-> | Hin]; [| apply elem_of_app; by right].
    rewrite Hf, dom_empty_L in Hk. by apply not_elem_of_empty in Hk.
  - apply elem_of_app in Hin as [Hin | Hin]; apply elem_of_app; [by left |].
    right. by apply list_elem_of_further.
Qed.

Lemma print_each_run (names : list string) (w : World) :
  print_each names w
  = (Ok tt, {| files := files w;
               stdout := stdout w ++ map (fun property => "  - " +:+ property) names |}).
Proof.
  revert w. induction names as [| n names IH]; intros w; cbn [print_each map].
  - unfold ret. rewrite app_nil_r. by destruct w.
  - unfold bind, print. rewrite IH. cbn. by rewrite <- app_assoc.
Qed.

(** What a run of [show_properties] does, by the state of the input file. *)
Lemma show_properties_run (input_file : string) (w : World) :
  show_properties input_file w =
  match files w !! input_file with
  | None => (Raise FileNotFoundError, w)
  | Some (Html _) => (Raise JSONDecodeError, w)
  | Some (GeoJSON features) =>
      (Ok tt,
       {| files := files w;
          stdout := stdout w ++ "Available properties:"
                      :: map (fun property => "  - " +:+ property)
                             (list_properties features) |})
  end.
Proof.
  unfold show_properties, bind, load_features.
  destruct (files w !! input_file) as [[features | d] |]; try reflexivity.
  unfold print. rewrite print_each_run. cbn.
  by rewrite <- app_assoc.
Qed.

End Properties.

(** ** Runs of [create_map] *)

Section Runs.
Local Open Scope R_scope.

Lemma analysis_run (input_file : string) (w : World) :
  analysis input_file w =
  (match files w !! input_file with
   | None => Raise FileNotFoundError
   | Some (Html _) => Raise JSONDecodeError
   | Some (GeoJSON features) =>
       agg <-! aggregate features ;;
       zoom <-! get_zoom_level (fst agg) 500 500 ;;
       Ok (agg, zoom)
   end, w).
Proof.
  unfold analysis, bind, load_features, lift, ret.
  destruct (files w !! input_file) as [[features | d] |]; try reflexivity.
  destruct (aggregate features) as [agg | e]; [| reflexivity]. cbn.
  by destruct (get_zoom_level (fst agg) 500 500).
Qed.

(** A run of [create_map], by the state of the input file and the outcome
    of the analysis. *)
Lemma create_map_run
    (input_file : string) (layer_type : option string) (elevation_scale : R)
    (fill_color line_color : list Z) (auto_highlight pickable : bool)
    (extruded stroked filled wireframe : bool)
    (coverage pitch bearing : R) (output_file elevation_property : string)
    (w : World) :
  create_map input_file layer_type elevation_scale fill_color line_color
    auto_highlight pickable extruded stroked filled wireframe
    coverage pitch bearing output_file elevation_property w
  = match analysis input_file w with
    | (Raise e, _) => (Raise e, w)
    | (Ok (_, centroid, zoom), _) =>
        match files w !! input_file with
        | Some (GeoJSON features) =>
            (Ok tt,
             {| files :=
                  <[output_file :=
                      Html (assembled_deck layer_type elevation_scale fill_color
                              line_color auto_highlight pickable extruded stroked
                              filled wireframe coverage pitch bearing
                              elevation_property features centroid zoom)]>
                    (files w);
                stdout := stdout w |})
        | _ => (Ok tt, w)
        end
    end.
Proof.
  rewrite analysis_run.
  unfold create_map, bind, load_json, lift.
  destruct (files w !! input_file) as [[features | d] |]; try reflexivity.
  cbn [document_features].
  destruct (aggregate features) as [[b c] | e]; [| reflexivity]. cbn.
  by destruct (get_zoom_level b 500 500).
Qed.

(** On a non-empty feature collection the analysis succeeds. *)
Lemma analysis_nonempty (input_file : string) (w : World) (features : list Feature) :
  files w !! input_file = Some (GeoJSON features) ->
  features <> [] ->
  exists bounds centroid zoom,
    aggregate features = Ok (bounds, centroid)
    /\ get_zoom_level bounds 500 500 = Ok zoom
    /\ analysis input_file w = (Ok (bounds, centroid, zoom), w).
Proof.
  intros Hf Hne.
  destruct (aggregate_spec _ Hne) as (minx & miny & maxx & maxy & E & _).
  eexists (minx, miny, maxx, maxy), _, _.
  split; [exact E |].
  assert (Hz := get_zoom_level_defined minx miny maxx maxy 500 500).
  split; [apply Hz; lra |].
  rewrite analysis_run, Hf, E. cbn [result_bind fst].
  rewrite Hz by lra. reflexivity.
Qed.

End Runs.

(** ** Decimal enclosures of [PI] and [ln 2] *)

Section Constants.
Local Open Scope R_scope.

Lemma PI_below_31416 : PI < 31416 / 10000.
Proof.
  destruct (PI_2_3_7_ineq 3) as [_ Hup].
  unfold sum_f_R0, tg_alt, PI_2_3_7_tg, Ratan_seq in Hup.
  cbn [Nat.mul Nat.add] in Hup.
  rewrite !S_INR, INR_0 in Hup. cbn [pow] in Hup.
  lra.
Qed.

Lemma PI_above_31415 : 31415 / 10000 < PI.
Proof.
  destruct (PI_2_3_7_ineq 2) as [Hlow _].
  unfold sum_f_R0, tg_alt, PI_2_3_7_tg, Ratan_seq in Hlow.
  cbn [Nat.mul Nat.add] in Hlow.
  rewrite !S_INR, INR_0 in Hlow. cbn [pow] in Hlow.
  lra.
Qed.

Lemma exp_series_cv (x : R) : Un_cv (fun n => sum_f_R0 (exp_term x) n) (exp x).
Proof. exact (proj2_sig (exist_exp x)). Qed.

Lemma exp_above_partial_sum (x : R) (n : nat) :
  0 <= x -> sum_f_R0 (exp_term x) n <= exp x.
Proof.
  intros Hx. apply sum_incr; [apply exp_series_cv |].
  intros i. unfold exp_term. apply Rmult_le_pos; [| by apply pow_le].
  left. apply Rinv_0_lt_compat, INR_fact_lt_0.
Qed.

Lemma exp_alt_term_decreasing (y : R) :
  0 <= y <= 1 -> Un_decreasing (exp_alt_term y).
Proof.
  intros [Hy0 Hy1] n. unfold exp_alt_term.
  rewrite fact_simpl, mult_INR. cbn [pow].
  pose proof (INR_fact_lt_0 n) as Hfact.
  pose proof (pos_INR n) as Hn.
  assert (Hpow : 0 <= y ^ n) by (by apply pow_le).
  assert (HS : 1 <= INR (S n)) by (rewrite S_INR; lra).
  assert (HiS : 0 < / INR (S n) <= 1).
  { split; [apply Rinv_0_lt_compat; lra |].
    rewrite <- Rinv_1. apply Rinv_le_contravar; lra. }
  assert (Hif : 0 < / INR (fact n)) by (by apply Rinv_0_lt_compat).
  assert (Hq : 0 <= y ^ n * / INR (fact n)) by (apply Rmult_le_pos; lra).
  assert (Hr : y * / INR (S n) <= 1) by nra.
  unfold Rdiv. rewrite Rinv_mult.
  replace (y * y ^ n * (/ INR (S n) * / INR (fact n)))
    with ((y * / INR (S n)) * (y ^ n * / INR (fact n))) by ring.
  nra.
Qed.

Lemma exp_neg_above_partial_sum (y : R) (n : nat) :
  0 <= y <= 1 ->
  sum_f_R0 (tg_alt (exp_alt_term y)) (S (2 * n)) <= exp (- y).
Proof.
  intros Hy.
  apply (alternated_series_ineq (exp_alt_term y) (exp (- y)) n).
  - by apply exp_alt_term_decreasing.
  - apply cv_speed_pow_fact.
  - intros eps Heps. destruct (exp_series_cv (- y) eps Heps) as [M HM].
    exists M. intros k Hk. specialize (HM k Hk).
    replace (sum_f_R0 (tg_alt (exp_alt_term y)) k)
      with (sum_f_R0 (exp_term (- y)) k); [exact HM |].
    apply sum_eq. intros i _. unfold exp_term, tg_alt, exp_alt_term.
    replace (- y) with (-1 * y) by ring.
    rewrite Rpow_mult_distr. unfold Rdiv. ring.
Qed.

Lemma INR_fact_IZR (n : nat) : INR (fact n) = IZR (Z.of_nat (fact n)).
Proof. apply INR_IZR_INZ. Qed.

(** Evaluate the factorials left in [H] to integer literals. *)
Ltac eval_facts H :=
  rewrite !INR_fact_IZR in H; cbn [pow] in H;
  repeat match type of H with
         | context [Z.of_nat (fact ?k)] =>
             let v := eval vm_compute in (Z.of_nat (fact k)) in
             change (Z.of_nat (fact k)) with v in H
         end.

Lemma ln2_below_6932 : ln 2 < 6932 / 10000.
Proof.
  apply exp_lt_inv. rewrite exp_ln by lra.
  pose proof (exp_above_partial_sum (6932 / 10000) 7) as H.
  unfold sum_f_R0, exp_term in H. eval_facts H.
  lra.
Qed.

Lemma ln2_above_6931 : 6931 / 10000 < ln 2.
Proof.
  apply exp_lt_inv. rewrite exp_ln by lra.
  pose proof (exp_neg_above_partial_sum (6931 / 10000) 4) as H.
  unfold sum_f_R0, tg_alt, exp_alt_term in H.
  cbn [Nat.mul Nat.add] in H. eval_facts H.
  rewrite exp_Ropp in H.
  pose proof (exp_pos (6931 / 10000)) as Hpos.
  destruct (Rlt_dec (exp (6931 / 10000)) 2) as [Hlt | Hge]; [exact Hlt |].
  assert (/ exp (6931 / 10000) <= / 2) by (apply Rinv_le_contravar; lra).
  lra.
Qed.

(** [PI * ln 2] lies between 2.1773 and 2.1778. *)
Lemma PI_ln2_enclosure : 21773 / 10000 < PI * ln 2 < 21778 / 10000.
Proof.
  pose proof PI_below_31416. pose proof PI_above_31415.
  pose proof ln2_below_6932. pose proof ln2_above_6931.
  split; nra.
Qed.

End Constants.

(** * The claims *)

Section ZoomClaims.
Local Open Scope R_scope.

(** The zoom of the box [(0, 0, 10, 10)] on a 500 x 500 surface. *)
Lemma zoom_10_500_enclosure :
  -16535 / 10000 < - (10 / 500) / (2 * PI) * 360 / ln 2 < -16530 / 10000.
Proof.
  pose proof PI_ln2_enclosure as [Hlo Hhi].
  assert (Hpos : 0 < PI * ln 2) by lra.
  replace (- (10 / 500) / (2 * PI) * 360 / ln 2) with (- (36 / 10) / (PI * ln 2)).
  2:{ field. split; first [apply ln2_neq0 | apply PI_neq0]. }
  assert (Hinv : 0 < / (PI * ln 2)) by (by apply Rinv_0_lt_compat).
  assert (Hone : PI * ln 2 * / (PI * ln 2) = 1) by (apply Rinv_r; lra).
  unfold Rdiv at 2 4. split; nra.
Qed.

(** C1. [get_zoom_level] returns the minimum of
    [xzoom = -((maxx-minx)/width) / (2π) * 360 / ln 2] and
    [yzoom = -((maxy-miny)/height) / (2π) * 360 / ln 2] for every bounding
    box and every non-zero pixel dimensions; for bounds (0,0,10,10) on
    500 x 500 pixels the result is [-(10/500)/(2π)*360/ln 2], which is
    within 0.001 of -1.654; for a box twice as wide as tall on equal pixel
    dimensions the result is the x-axis zoom. *)
Theorem C1_get_zoom_level_formula :
  (forall minx miny maxx maxy width height : R,
      width <> 0 -> height <> 0 ->
      get_zoom_level (minx, miny, maxx, maxy) width height
      = Ok (Rmin (- ((maxx - minx) / width) / (2 * PI) * 360 / ln 2)
                 (- ((maxy - miny) / height) / (2 * PI) * 360 / ln 2)))
  /\ (get_zoom_level (0, 0, 10, 10) 500 500
      = Ok (- (10 / 500) / (2 * PI) * 360 / ln 2)
      /\ Rabs (- (10 / 500) / (2 * PI) * 360 / ln 2 - (- (1654 / 1000))) < 1 / 1000)
  /\ (forall minx miny maxx maxy size : R,
         0 < size -> 0 <= maxy - miny -> maxx - minx = 2 * (maxy - miny) ->
         get_zoom_level (minx, miny, maxx, maxy) size size
         = Ok (- ((maxx - minx) / size) / (2 * PI) * 360 / ln 2)).
Proof.
  split; [| split].
  - intros. by apply get_zoom_level_defined.
  - split.
    + rewrite get_zoom_level_defined by lra. unfold axis_zoom.
      rewrite Rminus_0_r. by rewrite Rmin_left by lra.
    + pose proof zoom_10_500_enclosure as [Hlo Hhi].
      apply Rabs_def1; lra.
  - intros minx miny maxx maxy size Hs Hy Hx.
    rewrite get_zoom_level_defined by lra.
    fold (axis_zoom (maxx - minx) size). f_equal.
    apply Rmin_left.
    rewrite !axis_zoom_scale by lra. rewrite Hx.
    pose proof zoom_scale_pos as Hk.
    assert (Hq : 0 <= (maxy - miny) / size).
    { unfold Rdiv. apply Rmult_le_pos; [exact Hy |].
      left. by apply Rinv_0_lt_compat. }
    replace (2 * (maxy - miny) / size) with (2 * ((maxy - miny) / size))
      by (unfold Rdiv; ring).
    nra.
Qed.

Lemma C1_get_zoom_level_formula_witness :
  get_zoom_level (0, 0, 20, 10) 500 300
  = Ok (Rmin (- ((20 - 0) / 500) / (2 * PI) * 360 / ln 2)
             (- ((10 - 0) / 300) / (2 * PI) * 360 / ln 2))
  /\ get_zoom_level (0, 0, 20, 10) 500 500
     = Ok (- ((20 - 0) / 500) / (2 * PI) * 360 / ln 2).
Proof.
  split.
  - apply (proj1 C1_get_zoom_level_formula 0 0 20 10 500 300); lra.
  - apply (proj2 (proj2 C1_get_zoom_level_formula) 0 0 20 10 500); lra.
Defined.

(** C7. For a box with [minx <= maxx] and [miny <= maxy] and positive
    pixel dimensions, each axis zoom is the negation of a non-negative
    quantity, and [get_zoom_level] returns a value that is at most 0. *)
Theorem C7_zoom_nonpositive (minx miny maxx maxy width height : R) :
  minx <= maxx -> miny <= maxy -> 0 < width -> 0 < height ->
  exists px py z : R,
    0 <= px /\ 0 <= py
    /\ px = (maxx - minx) / width / (2 * PI) * 360 / ln 2
    /\ py = (maxy - miny) / height / (2 * PI) * 360 / ln 2
    /\ get_zoom_level (minx, miny, maxx, maxy) width height = Ok z
    /\ z = Rmin (- px) (- py)
    /\ z <= 0.
Proof.
  intros Hx Hy Hw Hh.
  set (px := (maxx - minx) / width / (2 * PI) * 360 / ln 2).
  set (py := (maxy - miny) / height / (2 * PI) * 360 / ln 2).
  assert (Ex : axis_zoom (maxx - minx) width = - px).
  { unfold axis_zoom, px. field.
    repeat split; first [apply ln2_neq0 | apply PI_neq0 | lra]. }
  assert (Ey : axis_zoom (maxy - miny) height = - py).
  { unfold axis_zoom, py. field.
    repeat split; first [apply ln2_neq0 | apply PI_neq0 | lra]. }
  assert (Hpx : 0 <= px).
  { pose proof (axis_zoom_nonpos (maxx - minx) width). lra. }
  assert (Hpy : 0 <= py).
  { pose proof (axis_zoom_nonpos (maxy - miny) height). lra. }
  exists px, py, (Rmin (- px) (- py)).
  repeat split; try assumption; try reflexivity.
  - rewrite get_zoom_level_defined by lra. by rewrite Ex, Ey.
  - apply Rle_trans with (- px); [apply Rmin_l | lra].
Qed.

Lemma C7_zoom_nonpositive_witness :
  exists px py z : R,
    0 <= px /\ 0 <= py
    /\ px = (10 - 0) / 500 / (2 * PI) * 360 / ln 2
    /\ py = (10 - 0) / 500 / (2 * PI) * 360 / ln 2
    /\ get_zoom_level (0, 0, 10, 10) 500 500 = Ok z
    /\ z = Rmin (- px) (- py)
    /\ z <= 0.
Proof. apply (C7_zoom_nonpositive 0 0 10 10 500 500); lra. Defined.

(** C6, as the specification states it, fails on the box [(0, 0, 0, 10)]
    with 500 x 500 pixels: [xdiff] is 0, yet the result is the negative
    y-axis zoom, not 0. *)
Lemma C6_counterexample :
  ~ (0 < 500 -> 0 < 500 -> 0 - 0 = 0 \/ 10 - 0 = 0 ->
     get_zoom_level (0, 0, 0, 10) 500 500 = Ok 0).
Proof.
  intros H. specialize (H ltac:(lra) ltac:(lra) ltac:(left; lra)).
  rewrite get_zoom_level_defined in H by lra.
  injection H as H.
  pose proof (Rmin_r (axis_zoom (0 - 0) 500) (axis_zoom (10 - 0) 500)) as Hr.
  rewrite H in Hr.
  rewrite axis_zoom_scale in Hr by lra.
  pose proof zoom_scale_pos. lra.
Qed.

(** C6, amended. With positive pixel dimensions: when [xdiff] and [ydiff]
    are both 0 the result is 0; when one of them is 0 and the other is
    non-negative the result is the zoom of the other axis. When [width] or
    [height] is 0 the call raises [ZeroDivisionError]; no input makes it
    raise [DegenerateBoundsError]. *)
Theorem C6_degenerate_zoom (minx miny maxx maxy width height : R) :
  (0 < width -> 0 < height -> maxx - minx = 0 -> maxy - miny = 0 ->
   get_zoom_level (minx, miny, maxx, maxy) width height = Ok 0)
  /\ (0 < width -> 0 < height -> maxx - minx = 0 -> 0 <= maxy - miny ->
      get_zoom_level (minx, miny, maxx, maxy) width height
      = Ok (- ((maxy - miny) / height) / (2 * PI) * 360 / ln 2))
  /\ (0 < width -> 0 < height -> maxy - miny = 0 -> 0 <= maxx - minx ->
      get_zoom_level (minx, miny, maxx, maxy) width height
      = Ok (- ((maxx - minx) / width) / (2 * PI) * 360 / ln 2))
  /\ (width = 0 \/ height = 0 ->
      get_zoom_level (minx, miny, maxx, maxy) width height
      = Raise ZeroDivisionError)
  /\ get_zoom_level (minx, miny, maxx, maxy) width height
     <> Raise DegenerateBoundsError.
Proof.
  repeat split.
  - intros Hw Hh Hx Hy. rewrite get_zoom_level_defined by lra.
    rewrite Hx, Hy, !axis_zoom_0 by lra. by rewrite Rmin_left by lra.
  - intros Hw Hh Hx Hy. rewrite get_zoom_level_defined by lra.
    fold (axis_zoom (maxy - miny) height).
    rewrite Hx, axis_zoom_0 by lra. f_equal. apply Rmin_right.
    by apply axis_zoom_nonpos.
  - intros Hw Hh Hy Hx. rewrite get_zoom_level_defined by lra.
    fold (axis_zoom (maxx - minx) width).
    rewrite Hy, axis_zoom_0 by lra. f_equal. apply Rmin_left.
    by apply axis_zoom_nonpos.
  - intros [-> | ->]; [apply get_zoom_level_width0 | apply get_zoom_level_height0].
  - destruct (Req_dec_T width 0) as [-> | Hw].
    { by rewrite get_zoom_level_width0. }
    destruct (Req_dec_T height 0) as [-> | Hh].
    { by rewrite get_zoom_level_height0. }
    by rewrite get_zoom_level_defined.
Qed.

Lemma C6_degenerate_zoom_witness :
  get_zoom_level (3, 4, 3, 4) 500 500 = Ok 0
  /\ get_zoom_level (0, 0, 0, 10) 500 500
     = Ok (- ((10 - 0) / 500) / (2 * PI) * 360 / ln 2)
  /\ get_zoom_level (0, 0, 10, 0) 500 500
     = Ok (- ((10 - 0) / 500) / (2 * PI) * 360 / ln 2)
  /\ get_zoom_level (0, 0, 10, 10) 0 500 = Raise ZeroDivisionError.
Proof.
  split; [| split; [| split]].
  - apply (proj1 (C6_degenerate_zoom 3 4 3 4 500 500)); lra.
  - apply (proj1 (proj2 (C6_degenerate_zoom 0 0 0 10 500 500))); lra.
  - apply (proj1 (proj2 (proj2 (C6_degenerate_zoom 0 0 10 0 500 500)))); lra.
  - apply (proj1 (proj2 (proj2 (proj2 (C6_degenerate_zoom 0 0 10 10 0 500))))).
    by left.
Defined.

End ZoomClaims.

Section AggregationClaims.
Local Open Scope R_scope.

Lemma bounds_of_perm (features features' : list Feature) :
  features ≡ₚ features' -> bounds_of features ≡ₚ bounds_of features'.
Proof. intros Hp. unfold bounds_of. by apply Permutation_map. Qed.

(** C2. For a non-empty sequence of features the aggregated bounding box
    is the union box: [minx] and [miny] are the least [bounds[0]] and
    [bounds[1]], [maxx] and [maxy] the greatest [bounds[2]] and
    [bounds[3]]; every reordering of the input yields the same box. *)
Theorem C2_union_bounding_box (features : list Feature) :
  features <> [] ->
  exists (minx miny maxx maxy : R) (centroid : Point.t),
    aggregate features = Ok ((minx, miny, maxx, maxy), centroid)
    /\ is_minimum minx (map bounds0 (bounds_of features))
    /\ is_minimum miny (map bounds1 (bounds_of features))
    /\ is_maximum maxx (map bounds2 (bounds_of features))
    /\ is_maximum maxy (map bounds3 (bounds_of features))
    /\ forall features' : list Feature,
        features ≡ₚ features' ->
        exists centroid' : Point.t,
          aggregate features' = Ok ((minx, miny, maxx, maxy), centroid').
Proof.
  intros Hne.
  destruct (aggregate_spec _ Hne)
    as (minx & miny & maxx & maxy & E & H0 & H1 & H2 & H3).
  exists minx, miny, maxx, maxy. eexists.
  split; [exact E |]. do 4 (split; [assumption |]).
  intros features' Hp.
  assert (Hne' : features' <> []).
  { intros ->. by apply Permutation_nil_r in Hp. }
  destruct (aggregate_spec _ Hne')
    as (minx' & miny' & maxx' & maxy' & E' & H0' & H1' & H2' & H3').
  pose proof (bounds_of_perm _ _ Hp) as Hb.
  assert (minx = minx') as <-.
  { eapply is_minimum_unique; [| exact H0'].
    eapply is_minimum_perm; [| exact H0]. by apply Permutation_map. }
  assert (miny = miny') as <-.
  { eapply is_minimum_unique; [| exact H1'].
    eapply is_minimum_perm; [| exact H1]. by apply Permutation_map. }
  assert (maxx = maxx') as <-.
  { eapply is_maximum_unique; [| exact H2'].
    eapply is_maximum_perm; [| exact H2]. by apply Permutation_map. }
  assert (maxy = maxy') as <-.
  { eapply is_maximum_unique; [| exact H3'].
    eapply is_maximum_perm; [| exact H3]. by apply Permutation_map. }
  eexists. exact E'.
Qed.

Lemma C2_union_bounding_box_witness :
  exists (minx miny maxx maxy : R) (centroid centroid' : Point.t),
    aggregate [sample_square; sample_rectangle]
    = Ok ((minx, miny, maxx, maxy), centroid)
    /\ aggregate [sample_rectangle; sample_square]
       = Ok ((minx, miny, maxx, maxy), centroid')
    /\ is_minimum minx (map bounds0 (bounds_of [sample_square; sample_rectangle]))
    /\ is_minimum miny (map bounds1 (bounds_of [sample_square; sample_rectangle]))
    /\ is_maximum maxx (map bounds2 (bounds_of [sample_square; sample_rectangle]))
    /\ is_maximum maxy (map bounds3 (bounds_of [sample_square; sample_rectangle])).
Proof.
  destruct (C2_union_bounding_box [sample_square; sample_rectangle])
    as (minx & miny & maxx & maxy & c & E & H0 & H1 & H2 & H3 & Hperm).
  { discriminate. }
  destruct (Hperm [sample_rectangle; sample_square]) as [c' E'].
  { apply perm_swap. }
  exists minx, miny, maxx, maxy, c, c'.
  exact (conj E (conj E' (conj H0 (conj H1 (conj H2 H3))))).
Defined.

(** The union box of the two samples, computed. *)
Example aggregate_samples_bounds :
  exists centroid : Point.t,
    aggregate [sample_square; sample_rectangle] = Ok ((0, 0, 5, 4), centroid).
Proof.
  eexists. unfold aggregate. rewrite collect_maps.
  unfold total_bounds, mean_centroid, bounds_of, centroids_of.
  cbn [map geometry bounds centroid sample_square sample_rectangle
       bounds0 bounds1 bounds2 bounds3 py_min py_max fold_left result_bind].
  unfold py_min2, py_max2.
  repeat match goal with
         | |- context [Rlt_dec ?a ?b] => destruct (Rlt_dec a b); try lra
         | |- context [Rgt_dec ?a ?b] => destruct (Rgt_dec a b); try lra
         end.
  cbn [result_bind].
  rewrite !py_div_nonzero by (unfold py_len; cbn; lra).
  reflexivity.
Qed.

(** C3. For a non-empty sequence of [N] features the aggregated centroid
    is the plain mean of the features' own centroids: the sum of their
    [x] divided by [N] and the sum of their [y] divided by [N]. It
    depends on the centroids alone, not on the extent of the shapes. For
    centroids (1,1), (3,3), (5,5) it is (3,3). *)
Theorem C3_mean_of_centroids :
  (forall centroid_list : list Point.t,
      centroid_list <> [] ->
      mean_centroid centroid_list
      = Ok (Point.mk (Rsum (map Point.x centroid_list) / INR (length centroid_list))
                     (Rsum (map Point.y centroid_list) / INR (length centroid_list))))
  /\ (forall features : list Feature,
         features <> [] ->
         exists box : BBox,
           aggregate features
           = Ok (box,
                 Point.mk
                   (Rsum (map Point.x (centroids_of features)) / INR (length features))
                   (Rsum (map Point.y (centroids_of features)) / INR (length features))))
  /\ (forall (features features' : list Feature) (box box' : BBox) (c c' : Point.t),
         centroids_of features = centroids_of features' ->
         aggregate features = Ok (box, c) ->
         aggregate features' = Ok (box', c') ->
         c = c')
  /\ (forall (b1 b2 b3 : BBox) (p1 p2 p3 : gmap string JValue),
         exists box : BBox,
           aggregate
             [ mkFeature (mkGeometry b1 (Point.mk 1 1)) p1;
               mkFeature (mkGeometry b2 (Point.mk 3 3)) p2;
               mkFeature (mkGeometry b3 (Point.mk 5 5)) p3 ]
           = Ok (box, Point.mk 3 3)).
Proof.
  split; [| split; [| split]].
  - apply mean_centroid_spec.
  - intros features Hne.
    destruct (aggregate_spec _ Hne) as (minx & miny & maxx & maxy & E & _).
    by exists (minx, miny, maxx, maxy).
  - intros features features' box box' c c' Hc E E'.
    unfold aggregate in E, E'. rewrite collect_maps in E, E'.
    destruct (total_bounds (bounds_of features)) as [b |]; [| discriminate].
    destruct (total_bounds (bounds_of features')) as [b' |]; [| discriminate].
    cbn [result_bind] in E, E'. rewrite Hc in E.
    destruct (mean_centroid (centroids_of features')) as [m |]; [| discriminate].
    cbn in E, E'. congruence.
  - intros b1 b2 b3 p1 p2 p3.
    set (fs := [ mkFeature (mkGeometry b1 (Point.mk 1 1)) p1;
                 mkFeature (mkGeometry b2 (Point.mk 3 3)) p2;
                 mkFeature (mkGeometry b3 (Point.mk 5 5)) p3 ]).
    assert (Hne : fs <> []) by discriminate.
    destruct (aggregate_spec _ Hne) as (minx & miny & maxx & maxy & E & _).
    exists (minx, miny, maxx, maxy). rewrite E. cbn.
    do 2 f_equal; f_equal; lra.
Qed.

Lemma C3_mean_of_centroids_witness :
  mean_centroid [Point.mk 1 1; Point.mk 3 3; Point.mk 5 5]
  = Ok (Point.mk
          (Rsum (map Point.x [Point.mk 1 1; Point.mk 3 3; Point.mk 5 5])
           / INR (length [Point.mk 1 1; Point.mk 3 3; Point.mk 5 5]))
          (Rsum (map Point.y [Point.mk 1 1; Point.mk 3 3; Point.mk 5 5])
           / INR (length [Point.mk 1 1; Point.mk 3 3; Point.mk 5 5])))
  /\ exists (box box' : BBox) (c : Point.t),
      aggregate [sample_square; sample_rectangle] = Ok (box, c)
      /\ aggregate
           [ mkFeature (mkGeometry (0, 0, 9, 9) (centroid (geometry sample_square))) ∅;
             sample_rectangle ]
         = Ok (box', c).
Proof.
  split.
  - apply (proj1 C3_mean_of_centroids [Point.mk 1 1; Point.mk 3 3; Point.mk 5 5]).
    discriminate.
  - destruct (proj1 (proj2 C3_mean_of_centroids) [sample_square; sample_rectangle])
      as [box E]; [discriminate |].
    destruct (proj1 (proj2 C3_mean_of_centroids)
                [ mkFeature (mkGeometry (0, 0, 9, 9) (centroid (geometry sample_square))) ∅;
                  sample_rectangle ])
      as [box' E']; [discriminate |].
    pose proof (proj1 (proj2 (proj2 C3_mean_of_centroids))
                  [sample_square; sample_rectangle]
                  [ mkFeature (mkGeometry (0, 0, 9, 9)
                                 (centroid (geometry sample_square))) ∅;
                    sample_rectangle ]
                  _ _ _ _ eq_refl E E')
      as Hc.
    eexists box, box', _. split; [exact E |].
    rewrite Hc. exact E'.
Defined.

(** C4, as the specification states it, fails: on the empty sequence the
    aggregation does not raise [EmptyInputError]. *)
Lemma C4_counterexample : aggregate [] <> Raise EmptyInputError.
Proof. rewrite aggregate_nil. discriminate. Qed.

(** C4, amended. On the empty sequence the aggregation fails with the
    [ValueError] of [min()] on an empty iterable, before any division is
    reached; no input makes it raise [EmptyInputError] or
    [ZeroDivisionError]; a run of the command line on a file without
    features raises that [ValueError] and writes nothing. *)
Theorem C4_empty_input_raises_ValueError :
  aggregate [] = Raise ValueError
  /\ (forall features : list Feature,
         aggregate features <> Raise EmptyInputError
         /\ aggregate features <> Raise ZeroDivisionError)
  /\ (forall (args : Args.t) (w : World),
         files w !! Args.input_file args = Some (GeoJSON []) ->
         pydeckCLI_main args w = (Raise ValueError, w)).
Proof.
  split; [reflexivity | split].
  - intros features. destruct features as [| f fs].
    + rewrite aggregate_nil. split; discriminate.
    + assert (Hne : f :: fs <> []) by discriminate.
      destruct (aggregate_spec _ Hne) as (minx & miny & maxx & maxy & E & _).
      rewrite E. split; discriminate.
  - intros args w Hf. unfold pydeckCLI_main.
    rewrite create_map_run, analysis_run, Hf. reflexivity.
Qed.

Lemma C4_empty_input_raises_ValueError_witness :
  pydeckCLI_main sample_args empty_collection_world
  = (Raise ValueError, empty_collection_world).
Proof.
  apply (proj2 (proj2 C4_empty_input_raises_ValueError)
           sample_args empty_collection_world).
  reflexivity.
Defined.

End AggregationClaims.

Section InspectorClaims.

(** C8. The names listed for a sequence of features are exactly the keys
    of the features' property dicts, each once, in ascending string
    order; a feature whose dict is empty adds nothing; for the dicts
    [{a:1, b:2}] and [{b:3, c:4}] the listing is [a, b, c]; for no feature
    at all it is empty. *)
Theorem C8_list_properties_sorted_union (features : list Feature) :
  (forall k : string,
      k ∈ list_properties features
      <-> exists feature, feature ∈ features /\ is_Some (properties feature !! k))
  /\ NoDup (list_properties features)
  /\ StronglySorted String.le (list_properties features)
  /\ (forall (pre post : list Feature) (feature : Feature),
         features = pre ++ feature :: post ->
         properties feature = ∅ ->
         list_properties features = list_properties (pre ++ post))
  /\ (forall g1 g2 : Geometry,
         list_properties
           [ mkFeature g1 {[ "a" := JNum 1; "b" := JNum 2 ]};
             mkFeature g2 {[ "b" := JNum 3; "c" := JNum 4 ]} ]
         = ["a"; "b"; "c"])
  /\ list_properties [] = [].
Proof.
  split; [| split; [| split; [| split; [| split]]]].
  - intros k. unfold list_properties.
    rewrite elem_of_py_sorted, elem_of_property_set.
    split; intros (f & Hf & Hk); exists f; (split; [done |]);
      by apply elem_of_dom.
  - apply py_sorted_NoDup.
  - apply py_sorted_sorted.
  - intros pre post f -> Hf. unfold list_properties.
    by rewrite property_set_skip.
  - intros g1 g2. by vm_compute.
  - reflexivity.
Qed.

Lemma C8_list_properties_sorted_union_witness :
  list_properties ([sample_square] ++ sample_rectangle :: [])
  = list_properties ([sample_square] ++ []).
Proof.
  apply (proj1 (proj2 (proj2 (proj2
           (C8_list_properties_sorted_union
              ([sample_square] ++ sample_rectangle :: []))))) 
           [sample_square] [] sample_rectangle); reflexivity.
Defined.

(** C9. Without [--properties] the inspector prints nothing and leaves
    the world as it is. With [--properties], on an input file holding a
    feature collection, it prints [Available properties:] and then one
    line per name, each after the prefix of two spaces, a dash and a
    space; the names printed are exactly the keys of the features'
    property dicts, each once, in ascending order. When the file cannot
    be loaded it raises and prints nothing. *)
Theorem C9_inspector_output (args : PArgs.t) (w : World) :
  (PArgs.properties args = false -> show_properties_main args w = (Ok tt, w))
  /\ (PArgs.properties args = true ->
      forall features : list Feature,
        files w !! PArgs.input_file args = Some (GeoJSON features) ->
        exists names : list string,
          show_properties_main args w
          = (Ok tt,
             {| files := files w;
                stdout := stdout w ++ "Available properties:"
                            :: map (fun property => "  - " +:+ property) names |})
          /\ names = list_properties features
          /\ (forall k : string,
                 k ∈ names
                 <-> exists feature,
                       feature ∈ features /\ is_Some (properties feature !! k))
          /\ NoDup names
          /\ StronglySorted String.le names)
  /\ (PArgs.properties args = true ->
      (forall features : list Feature,
          files w !! PArgs.input_file args <> Some (GeoJSON features)) ->
      exists e : exn, show_properties_main args w = (Raise e, w)).
Proof.
  unfold show_properties_main. split; [| split].
  - by intros ->.
  - intros -> features Hf. exists (list_properties features).
    rewrite show_properties_run, Hf.
    split; [reflexivity |]. split; [reflexivity |].
    split; [| split; [apply py_sorted_NoDup | apply py_sorted_sorted]].
    intros k. unfold list_properties.
    rewrite elem_of_py_sorted, elem_of_property_set.
    split; intros (f & Hin & Hk); exists f; (split; [done |]);
      by apply elem_of_dom.
  - intros -> Hf. rewrite show_properties_run.
    destruct (files w !! PArgs.input_file args) as [[features | d] |].
    + by destruct (Hf features).
    + by eexists.
    + by eexists.
Qed.

Lemma C9_inspector_output_witness :
  show_properties_main (PArgs.mk "input.geojson" false) sample_world
  = (Ok tt, sample_world)
  /\ (exists names : list string,
        show_properties_main (PArgs.mk "input.geojson" true) sample_world
        = (Ok tt,
           {| files := files sample_world;
              stdout := stdout sample_world ++ "Available properties:"
                          :: map (fun property => "  - " +:+ property) names |})
        /\ names = list_properties sample_collection
        /\ (forall k : string,
               k ∈ names
               <-> exists feature,
                     feature ∈ sample_collection
                     /\ is_Some (properties feature !! k))
        /\ NoDup names
        /\ StronglySorted String.le names)
  /\ exists e : exn,
      show_properties_main (PArgs.mk "missing.geojson" true) sample_world
      = (Raise e, sample_world).
Proof.
  split; [| split].
  - apply (proj1 (C9_inspector_output (PArgs.mk "input.geojson" false) sample_world)).
    reflexivity.
  - apply (proj1 (proj2 (C9_inspector_output
                           (PArgs.mk "input.geojson" true) sample_world))
             eq_refl sample_collection).
    reflexivity.
  - apply (proj2 (proj2 (C9_inspector_output
                           (PArgs.mk "missing.geojson" true) sample_world))).
    + reflexivity.
    + intros features. discriminate.
Defined.

(** The lines printed for the specification's example. *)
Example inspector_sample_output :
  stdout (snd (show_properties_main (PArgs.mk "input.geojson" true) sample_world))
  = ["Available properties:"; "  - a"; "  - b"; "  - c"].
Proof. by vm_compute. Qed.

End InspectorClaims.

Section RendererClaims.
Local Open Scope R_scope.

(** A successful run wrote a deck to the output file, assembled from the
    parameters [create_map] received. *)
Lemma create_map_success
    (input_file : string) (layer_type : option string) (elevation_scale : R)
    (fill_color line_color : list Z) (auto_highlight pickable : bool)
    (extruded stroked filled wireframe : bool)
    (coverage pitch bearing : R) (output_file elevation_property : string)
    (w w' : World) :
  create_map input_file layer_type elevation_scale fill_color line_color
    auto_highlight pickable extruded stroked filled wireframe
    coverage pitch bearing output_file elevation_property w = (Ok tt, w') ->
  exists (features : list Feature) (box : BBox) (c : Point.t) (zoom : R),
    files w !! input_file = Some (GeoJSON features)
    /\ aggregate features = Ok (box, c)
    /\ get_zoom_level box 500 500 = Ok zoom
    /\ w' = {| files :=
                 <[output_file :=
                     Html (assembled_deck layer_type elevation_scale fill_color
                             line_color auto_highlight pickable extruded stroked
                             filled wireframe coverage pitch bearing
                             elevation_property features c zoom)]>
                   (files w);
               stdout := stdout w |}.
Proof.
  rewrite create_map_run, analysis_run.
  destruct (files w !! input_file) as [[features | d] |] eqn:Ef;
    [| discriminate..].
  destruct (aggregate features) as [[box c] | e] eqn:Ea; [| discriminate].
  cbn [result_bind fst].
  destruct (get_zoom_level box 500 500) as [zoom | e] eqn:Ez; [| discriminate].
  cbn [result_bind]. intros [= <-].
  by exists features, box, c, zoom.
Qed.

(** C5. The command line passes [args.stroked], [args.filled],
    [args.wireframe], [args.extruded] in this order to the parameters
    [extruded], [stroked], [filled], [wireframe] of [create_map]; so in
    the layer of every deck a run writes, [extruded] holds the value of
    [--stroked], [stroked] that of [--filled], [filled] that of
    [--wireframe] and [wireframe] that of [--extruded]. A run on a file
    with at least one feature does write a deck. *)
Theorem C5_flag_binding (args : Args.t) :
  (let extruded := Args.stroked args in
   let stroked := Args.filled args in
   let filled := Args.wireframe args in
   let wireframe := Args.extruded args in
   pydeckCLI_main args
   = create_map (Args.input_file args) (Args.layer_type args)
       (Args.elevation_scale args) (Args.fill_color args) (Args.line_color args)
       (Args.auto_highlight args) (Args.pickable args)
       extruded stroked filled wireframe
       (Args.coverage args) (Args.pitch args) (Args.bearing args)
       (Args.output_file args) (Args.elevation_property args))
  /\ (forall w w' : World,
         pydeckCLI_main args w = (Ok tt, w') ->
         exists (layer : Layer.t) (view_state : ViewState.t),
           files w' !! Args.output_file args
           = Some (Html (Deck.mk [layer] view_state))
           /\ Layer.extruded layer = Args.stroked args
           /\ Layer.stroked layer = Args.filled args
           /\ Layer.filled layer = Args.wireframe args
           /\ Layer.wireframe layer = Args.extruded args)
  /\ (forall (w : World) (features : list Feature),
         files w !! Args.input_file args = Some (GeoJSON features) ->
         features <> [] ->
         exists w' : World, pydeckCLI_main args w = (Ok tt, w')).
Proof.
  split; [reflexivity | split].
  - intros w w' Hrun. unfold pydeckCLI_main in Hrun.
    apply create_map_success in Hrun
      as (features & box & c & zoom & _ & _ & _ & ->).
    eexists _, _. cbn [files]. rewrite lookup_insert_eq.
    unfold assembled_deck. split; [reflexivity |]. by cbn.
  - intros w features Hf Hne. unfold pydeckCLI_main.
    destruct (analysis_nonempty _ _ _ Hf Hne) as (box & c & zoom & _ & _ & Ea).
    rewrite create_map_run, Ea, Hf. by eexists.
Qed.

Lemma C5_flag_binding_witness :
  exists (w' : World) (layer : Layer.t) (view_state : ViewState.t),
    pydeckCLI_main sample_args sample_world = (Ok tt, w')
    /\ files w' !! "output.html" = Some (Html (Deck.mk [layer] view_state))
    /\ Layer.extruded layer = false
    /\ Layer.stroked layer = true
    /\ Layer.filled layer = true
    /\ Layer.wireframe layer = true.
Proof.
  destruct (proj2 (proj2 (C5_flag_binding sample_args)) sample_world sample_collection)
    as [w' Hrun]; [reflexivity | discriminate |].
  destruct (proj1 (proj2 (C5_flag_binding sample_args)) sample_world w' Hrun)
    as (layer & view_state & Hout & He & Hs & Hfi & Hw).
  exists w', layer, view_state.
  exact (conj Hrun (conj Hout (conj He (conj Hs (conj Hfi Hw))))).
Defined.

(** With the defaults, where only [--stroked] is false, it is the layer's
    [extruded] that ends up false. *)
Example default_flags_layer (w' : World) (layer : Layer.t) (view_state : ViewState.t) :
  pydeckCLI_main sample_args sample_world = (Ok tt, w') ->
  files w' !! "output.html" = Some (Html (Deck.mk [layer] view_state)) ->
  Layer.extruded layer = false /\ Layer.stroked layer = true.
Proof.
  intros Hrun Hout. unfold pydeckCLI_main in Hrun.
  apply create_map_success in Hrun
    as (features & box & c & zoom & _ & _ & _ & ->).
  cbn [files Args.output_file sample_args] in Hout.
  rewrite lookup_insert_eq in Hout. injection Hout as <- _.
  by split.
Qed.

End RendererClaims.

Section DeterminismClaims.
Local Open Scope R_scope.

(** The analysis reads the input file and nothing else. *)
Lemma analysis_reads_input_only (input_file : string) (w w' : World) :
  files w' !! input_file = files w !! input_file ->
  fst (analysis input_file w') = fst (analysis input_file w).
Proof. intros Hf. rewrite !analysis_run. cbn [fst]. by rewrite Hf. Qed.

Lemma analysis_keeps_world (input_file : string) (w : World) :
  snd (analysis input_file w) = w.
Proof. by rewrite analysis_run. Qed.

(** A run of [create_map] that raises leaves the world as it was. *)
Lemma create_map_failure
    (input_file : string) (layer_type : option string) (elevation_scale : R)
    (fill_color line_color : list Z) (auto_highlight pickable : bool)
    (extruded stroked filled wireframe : bool)
    (coverage pitch bearing : R) (output_file elevation_property : string)
    (w w' : World) (e : exn) :
  create_map input_file layer_type elevation_scale fill_color line_color
    auto_highlight pickable extruded stroked filled wireframe
    coverage pitch bearing output_file elevation_property w = (Raise e, w') ->
  w' = w.
Proof.
  rewrite create_map_run, analysis_run.
  destruct (files w !! input_file) as [[features | d] |]; try by intros [= _ <-].
  destruct (aggregate features) as [[box c] | e0]; [| by intros [= _ <-]].
  cbn [result_bind fst].
  destruct (get_zoom_level box 500 500); [discriminate | by intros [= _ <-]].
Qed.

(** C10. The bounding box, the centroid and the zoom computed from the
    input file form a function of the content of that file: computing
    them changes nothing in the world, two worlds that agree on the input
    file give the same three values, and the values the written deck
    carries are these. Running the command line a second time, on an
    input file distinct from the output file, computes the same three
    values, returns the same result and leaves the world of the first run
    unchanged. *)
Theorem C10_deterministic_analysis (args : Args.t) (w : World) :
  snd (analysis (Args.input_file args) w) = w
  /\ (forall w' : World,
         files w' !! Args.input_file args = files w !! Args.input_file args ->
         fst (analysis (Args.input_file args) w')
         = fst (analysis (Args.input_file args) w))
  /\ (forall w' : World,
         pydeckCLI_main args w = (Ok tt, w') ->
         exists (box : BBox) (c : Point.t) (zoom : R)
                (layers : list Layer.t) (view_state : ViewState.t),
           fst (analysis (Args.input_file args) w) = Ok (box, c, zoom)
           /\ files w' !! Args.output_file args
              = Some (Html (Deck.mk layers view_state))
           /\ ViewState.longitude view_state = Point.x c
           /\ ViewState.latitude view_state = Point.y c
           /\ ViewState.zoom view_state = zoom)
  /\ (Args.input_file args <> Args.output_file args ->
      fst (analysis (Args.input_file args) (snd (pydeckCLI_main args w)))
      = fst (analysis (Args.input_file args) w)
      /\ fst (pydeckCLI_main args (snd (pydeckCLI_main args w)))
         = fst (pydeckCLI_main args w)
      /\ snd (pydeckCLI_main args (snd (pydeckCLI_main args w)))
         = snd (pydeckCLI_main args w)).
Proof.
  split; [apply analysis_keeps_world | split; [| split]].
  - intros w'. apply analysis_reads_input_only.
  - intros w' Hrun. unfold pydeckCLI_main in Hrun.
    apply create_map_success in Hrun
      as (features & box & c & zoom & Hf & Ha & Hz & ->).
    exists box, c, zoom. eexists _, _.
    split; [| split; [cbn [files]; apply lookup_insert_eq | by cbn]].
    rewrite analysis_run, Hf, Ha. cbn [result_bind fst]. by rewrite Hz.
  - intros Hio.
    destruct (pydeckCLI_main args w) as [[[] | e] w1] eqn:E1; cbn [snd fst].
    + pose proof E1 as Hrun. unfold pydeckCLI_main in Hrun.
      apply create_map_success in Hrun
        as (features & box & c & zoom & Hf & Ha & Hz & ->).
      match goal with
      | |- context [analysis _ ?w1] => set (w1' := w1) in *
      end.
      assert (Hf1 : files w1' !! Args.input_file args = Some (GeoJSON features)).
      { subst w1'. cbn [files]. by rewrite lookup_insert_ne. }
      split; [apply analysis_reads_input_only; by rewrite Hf1, Hf |].
      unfold pydeckCLI_main.
      rewrite create_map_run, analysis_run, Hf1, Ha. cbn [result_bind fst].
      rewrite Hz. cbn [result_bind fst snd].
      split; [reflexivity |].
      subst w1'. cbn [files stdout]. by rewrite insert_insert_eq.
    + pose proof E1 as Hrun. unfold pydeckCLI_main in Hrun.
      apply create_map_failure in Hrun as ->.
      by rewrite E1.
Qed.

Lemma C10_deterministic_analysis_witness :
  (fst (analysis (Args.input_file sample_args)
          (snd (pydeckCLI_main sample_args sample_world)))
   = fst (analysis (Args.input_file sample_args) sample_world)
   /\ fst (pydeckCLI_main sample_args (snd (pydeckCLI_main sample_args sample_world)))
      = fst (pydeckCLI_main sample_args sample_world)
   /\ snd (pydeckCLI_main sample_args (snd (pydeckCLI_main sample_args sample_world)))
      = snd (pydeckCLI_main sample_args sample_world))
  /\ fst (analysis (Args.input_file sample_args)
            {| files := files sample_world; stdout := ["earlier output"] |})
     = fst (analysis (Args.input_file sample_args) sample_world).
Proof.
  split.
  - apply (proj2 (proj2 (proj2 (C10_deterministic_analysis sample_args sample_world)))).
    discriminate.
  - apply (proj1 (proj2 (C10_deterministic_analysis sample_args sample_world))).
    reflexivity.
Defined.

(** When the output path is the input path the first run replaces the
    collection by the rendered page, and a second run cannot load it. *)
Example rerun_on_overwritten_input (features : list Feature) :
  features <> [] ->
  let args :=
    {| Args.input_file := "map"; Args.elevation_property := "elevation";
       Args.layer_type := None; Args.elevation_scale := 1;
       Args.fill_color := []; Args.line_color := [];
       Args.auto_highlight := true; Args.pickable := true;
       Args.stroked := false; Args.filled := true;
       Args.wireframe := true; Args.extruded := true;
       Args.coverage := 1; Args.pitch := 45; Args.bearing := 0;
       Args.output_file := "map" |} in
  let w := {| files := {[ "map" := GeoJSON features ]}; stdout := [] |} in
  fst (pydeckCLI_main args w) = Ok tt
  /\ fst (pydeckCLI_main args (snd (pydeckCLI_main args w))) = Raise JSONDecodeError.
Proof.
  intros Hne args w.
  assert (Hf : files w !! "map" = Some (GeoJSON features)) by reflexivity.
  destruct (analysis_nonempty _ _ _ Hf Hne) as (box & c & zoom & Ha & Hz & Ea).
  unfold pydeckCLI_main. cbn [Args.input_file Args.output_file args].
  rewrite create_map_run, Ea, Hf. cbn [fst snd].
  split; [reflexivity |].
  rewrite create_map_run, analysis_run. cbn [files].
  by rewrite lookup_insert_eq.
Qed.

End DeterminismClaims.

(** * Further properties *)

(** ** [get_zoom_level] *)

Section ZoomFurther.
Local Open Scope R_scope.

Lemma axis_zoom_Rmax (a b size : R) :
  0 < size ->
  Rmin (axis_zoom a size) (axis_zoom b size) = axis_zoom (Rmax a b) size.
Proof.
  intros Hs. rewrite !axis_zoom_scale by lra.
  pose proof zoom_scale_pos as Hk.
  assert (Hi : 0 < / size) by (by apply Rinv_0_lt_compat).
  set (k := 360 / (2 * PI * ln 2)) in *.
  unfold Rdiv, Rmin, Rmax.
  destruct (Rle_dec a b) as [Hab | Hab];
    destruct (Rle_dec (- (a * / size) * k) (- (b * / size) * k)) as [Hz | Hz];
    try reflexivity.
  - assert (a * / size <= b * / size) by nra.
    assert (b * / size * k <= a * / size * k) by lra.
    assert (b * / size <= a * / size) by nra.
    assert (a * / size = b * / size) by lra.
    nra.
  - assert (b * / size <= a * / size) by nra.
    assert (a * / size * k < b * / size * k) by lra.
    nra.
Qed.

Lemma axis_zoom_antitone (a b size : R) :
  0 < size -> a <= b -> axis_zoom b size <= axis_zoom a size.
Proof.
  intros Hs Hab. rewrite !axis_zoom_scale by lra.
  pose proof zoom_scale_pos as Hk.
  assert (Hi : 0 < / size) by (by apply Rinv_0_lt_compat).
  unfold Rdiv at 1 3.
  assert (a * / size <= b * / size) by nra.
  nra.
Qed.

(** X1. On a surface with equal positive width and height the larger of
    the two extents of the box alone decides the zoom. *)
Theorem X1_zoom_equal_sizes_larger_extent (minx miny maxx maxy size : R) :
  0 < size ->
  get_zoom_level (minx, miny, maxx, maxy) size size
  = Ok (- (Rmax (maxx - minx) (maxy - miny) / size) / (2 * PI) * 360 / ln 2).
Proof.
  intros Hs. rewrite get_zoom_level_defined by lra.
  by rewrite axis_zoom_Rmax.
Qed.

Lemma X1_zoom_equal_sizes_larger_extent_witness :
  get_zoom_level (1, 1, 4, 9) 500 500
  = Ok (- (Rmax (4 - 1) (9 - 1) / 500) / (2 * PI) * 360 / ln 2).
Proof. apply (X1_zoom_equal_sizes_larger_extent 1 1 4 9 500). lra. Defined.

(** X5. On positive pixel dimensions a box that is at least as wide and
    at least as tall as another gets a zoom that is no greater. *)
Theorem X5_zoom_antitone_in_extent
    (minx miny maxx maxy minx' miny' maxx' maxy' width height : R) :
  0 < width -> 0 < height ->
  maxx - minx <= maxx' - minx' ->
  maxy - miny <= maxy' - miny' ->
  exists z z' : R,
    get_zoom_level (minx, miny, maxx, maxy) width height = Ok z
    /\ get_zoom_level (minx', miny', maxx', maxy') width height = Ok z'
    /\ z' <= z.
Proof.
  intros Hw Hh Hx Hy. eexists _, _.
  split; [apply get_zoom_level_defined; lra |].
  split; [apply get_zoom_level_defined; lra |].
  pose proof (axis_zoom_antitone _ _ width Hw Hx).
  pose proof (axis_zoom_antitone _ _ height Hh Hy).
  apply Rmin_glb.
  - eapply Rle_trans; [apply Rmin_l | done].
  - eapply Rle_trans; [apply Rmin_r | done].
Qed.

Lemma X5_zoom_antitone_in_extent_witness :
  exists z z' : R,
    get_zoom_level (2, 2, 3, 3) 500 500 = Ok z
    /\ get_zoom_level (0, 0, 10, 10) 500 500 = Ok z'
    /\ z' <= z.
Proof. apply (X5_zoom_antitone_in_extent 2 2 3 3 0 0 10 10 500 500); lra. Defined.

End ZoomFurther.

(** ** Aggregation in [create_map] *)

Section AggregationFurther.
Local Open Scope R_scope.

(** What a successful aggregation returned. *)
Lemma aggregate_Ok_inv (features : list Feature) (minx miny maxx maxy : R) (c : Point.t) :
  aggregate features = Ok ((minx, miny, maxx, maxy), c) ->
  features <> []
  /\ is_minimum minx (map bounds0 (bounds_of features))
  /\ is_minimum miny (map bounds1 (bounds_of features))
  /\ is_maximum maxx (map bounds2 (bounds_of features))
  /\ is_maximum maxy (map bounds3 (bounds_of features))
  /\ c = Point.mk
           (Rsum (map Point.x (centroids_of features)) / INR (length features))
           (Rsum (map Point.y (centroids_of features)) / INR (length features)).
Proof.
  intros E.
  assert (Hne : features <> []).
  { intros ->. by rewrite aggregate_nil in E. }
  split; [exact Hne |].
  destruct (aggregate_spec _ Hne) as (a & b & c' & d & E' & H0 & H1 & H2 & H3).
  rewrite E' in E. injection E as <- <- <- <- <-.
  exact (conj H0 (conj H1 (conj H2 (conj H3 eq_refl)))).
Qed.

(** X9. When every feature's own bounds have [minx <= maxx] and
    [miny <= maxy], so has the aggregated box. *)
Theorem X9_aggregate_box_well_formed
    (features : list Feature) (minx miny maxx maxy : R) (c : Point.t) :
  Forall (fun feature =>
            bounds0 (bounds (geometry feature)) <= bounds2 (bounds (geometry feature))
            /\ bounds1 (bounds (geometry feature)) <= bounds3 (bounds (geometry feature)))
         features ->
  aggregate features = Ok ((minx, miny, maxx, maxy), c) ->
  minx <= maxx /\ miny <= maxy.
Proof.
  intros Hall E.
  destruct (aggregate_Ok_inv _ _ _ _ _ _ E)
    as (Hne & [_ H0] & [_ H1] & [_ H2] & [_ H3] & _).
  destruct features as [| f fs]; [done |].
  apply Forall_cons in Hall as [[Hx Hy] _].
  unfold bounds_of in H0, H1, H2, H3. cbn [map] in H0, H1, H2, H3.
  apply Forall_cons in H0 as [H0 _]. apply Forall_cons in H1 as [H1 _].
  apply Forall_cons in H2 as [H2 _]. apply Forall_cons in H3 as [H3 _].
  split; lra.
Qed.

Lemma X9_aggregate_box_well_formed_witness :
  exists c : Point.t,
    aggregate [sample_square; sample_rectangle] = Ok ((0, 0, 5, 4), c)
    /\ (0 <= 5 /\ 0 <= 4).
Proof.
  destruct aggregate_samples_bounds as [c E].
  exists c. split; [exact E |].
  apply (X9_aggregate_box_well_formed [sample_square; sample_rectangle] 0 0 5 4 c).
  - repeat constructor; cbn; lra.
  - exact E.
Defined.

End AggregationFurther.

(** ** Runs of the map renderer *)

Section RendererFurther.
Local Open Scope R_scope.

(** On a collection with at least one feature the command line runs to
    its end. *)
Lemma pydeckCLI_main_succeeds (args : Args.t) (w : World) (features : list Feature) :
  files w !! Args.input_file args = Some (GeoJSON features) ->
  features <> [] ->
  exists w' : World, pydeckCLI_main args w = (Ok tt, w').
Proof.
  intros Hf Hne. unfold pydeckCLI_main.
  destruct (analysis_nonempty _ _ _ Hf Hne) as (box & c & zoom & _ & _ & Ea).
  rewrite create_map_run, Ea, Hf. by eexists.
Qed.

(** X12. The failures of a run that the input file decides: a missing
    file raises [FileNotFoundError], a rendered page in the place of the
    collection raises [JSONDecodeError], a collection without features
    raises [ValueError]; each leaves the world as it was. No run raises
    [ZeroDivisionError]. *)
Theorem X12_renderer_failures (args : Args.t) (w : World) :
  (files w !! Args.input_file args = None ->
   pydeckCLI_main args w = (Raise FileNotFoundError, w))
  /\ (forall deck : Deck.t,
         files w !! Args.input_file args = Some (Html deck) ->
         pydeckCLI_main args w = (Raise JSONDecodeError, w))
  /\ (files w !! Args.input_file args = Some (GeoJSON []) ->
      pydeckCLI_main args w = (Raise ValueError, w))
  /\ fst (pydeckCLI_main args w) <> Raise ZeroDivisionError.
Proof.
  split; [| split; [| split]].
  - intros Hf. unfold pydeckCLI_main.
    by rewrite create_map_run, analysis_run, Hf.
  - intros deck Hf. unfold pydeckCLI_main.
    by rewrite create_map_run, analysis_run, Hf.
  - intros Hf. unfold pydeckCLI_main.
    by rewrite create_map_run, analysis_run, Hf.
  - destruct (files w !! Args.input_file args) as [[[| f fs] | d] |] eqn:Hf.
    + unfold pydeckCLI_main. by rewrite create_map_run, analysis_run, Hf.
    + destruct (pydeckCLI_main_succeeds args w (f :: fs) Hf) as [w' ->]; done.
    + unfold pydeckCLI_main. by rewrite create_map_run, analysis_run, Hf.
    + unfold pydeckCLI_main. by rewrite create_map_run, analysis_run, Hf.
Qed.

Lemma X12_renderer_failures_witness :
  pydeckCLI_main sample_args {| files := ∅; stdout := [] |}
  = (Raise FileNotFoundError, {| files := ∅; stdout := [] |})
  /\ pydeckCLI_main
       {| Args.input_file := "output.html";
          Args.elevation_property := "elevation";
          Args.layer_type := None; Args.elevation_scale := 1;
          Args.fill_color := []; Args.line_color := [];
          Args.auto_highlight := true; Args.pickable := true;
          Args.stroked := false; Args.filled := true;
          Args.wireframe := true; Args.extruded := true;
          Args.coverage := 1; Args.pitch := 45; Args.bearing := 0;
          Args.output_file := "again.html" |}
       rendered_world
     = (Raise JSONDecodeError, rendered_world)
  /\ pydeckCLI_main sample_args empty_collection_world
     = (Raise ValueError, empty_collection_world).
Proof.
  split; [| split].
  - apply (proj1 (X12_renderer_failures sample_args {| files := ∅; stdout := [] |})).
    reflexivity.
  - eapply (proj1 (proj2 (X12_renderer_failures _ rendered_world))).
    reflexivity.
  - apply (proj1 (proj2 (proj2 (X12_renderer_failures sample_args
                                  empty_collection_world)))).
    reflexivity.
Defined.

(** X13. A run prints nothing and touches no file but the output file: a
    run that raises leaves the whole world as it was, and a run that ends
    leaves every other path as it was and a rendered page at the output
    path. *)
Theorem X13_renderer_frame (args : Args.t) (w : World) :
  stdout (snd (pydeckCLI_main args w)) = stdout w
  /\ (forall path : string,
         path <> Args.output_file args ->
         files (snd (pydeckCLI_main args w)) !! path = files w !! path)
  /\ (fst (pydeckCLI_main args w) <> Ok tt -> snd (pydeckCLI_main args w) = w)
  /\ (fst (pydeckCLI_main args w) = Ok tt ->
      exists deck : Deck.t,
        files (snd (pydeckCLI_main args w)) !! Args.output_file args
        = Some (Html deck)).
Proof.
  destruct (pydeckCLI_main args w) as [[[] | e] w'] eqn:E; cbn [fst snd].
  - unfold pydeckCLI_main in E.
    apply create_map_success in E as (features & box & c & zoom & _ & _ & _ & ->).
    cbn [files stdout]. repeat split.
    + intros path Hp. by rewrite lookup_insert_ne.
    + done.
    + intros _. eexists. apply lookup_insert_eq.
  - unfold pydeckCLI_main in E. apply create_map_failure in E as ->.
    repeat split; done.
Qed.

Lemma X13_renderer_frame_witness :
  files (snd (pydeckCLI_main sample_args sample_world)) !! "input.geojson"
  = files sample_world !! "input.geojson"
  /\ snd (pydeckCLI_main sample_args empty_collection_world) = empty_collection_world.
Proof.
  split.
  - apply (proj1 (proj2 (X13_renderer_frame sample_args sample_world))).
    discriminate.
  - apply (proj1 (proj2 (proj2 (X13_renderer_frame sample_args empty_collection_world)))).
    unfold pydeckCLI_main.
    rewrite create_map_run, analysis_run. discriminate.
Defined.



(** X15. When every feature's own bounds have [minx <= maxx] and
    [miny <= maxy], the zoom of the written view is at most 0, hence
    below the [min_zoom] of 13 written next to it. *)
Theorem X15_view_zoom_below_min_zoom
    (args : Args.t) (w w' : World) (features : list Feature) :
  files w !! Args.input_file args = Some (GeoJSON features) ->
  Forall (fun feature =>
            bounds0 (bounds (geometry feature)) <= bounds2 (bounds (geometry feature))
            /\ bounds1 (bounds (geometry feature)) <= bounds3 (bounds (geometry feature)))
         features ->
  pydeckCLI_main args w = (Ok tt, w') ->
  exists (layers : list Layer.t) (view_state : ViewState.t),
    files w' !! Args.output_file args = Some (Html (Deck.mk layers view_state))
    /\ ViewState.zoom view_state <= 0
    /\ ViewState.zoom view_state < IZR (ViewState.min_zoom view_state).
Proof.
  intros Hf Hwf Hrun. unfold pydeckCLI_main in Hrun.
  apply create_map_success in Hrun
    as (features' & [[[minx miny] maxx] maxy] & c & zoom & Hf' & Ha & Hz & ->).
  rewrite Hf in Hf'. injection Hf' as <-.
  eexists _, _. split; [cbn [files]; apply lookup_insert_eq |].
  cbn [ViewState.zoom ViewState.min_zoom].
  destruct (aggregate_Ok_inv _ _ _ _ _ _ Ha)
    as (Hne & [_ H0] & [_ H1] & [_ H2] & [_ H3] & _).
  assert (Hbox : minx <= maxx /\ miny <= maxy).
  { destruct features as [| f fs]; [done |].
    apply Forall_cons in Hwf as [[Hx Hy] _].
    unfold bounds_of in H0, H1, H2, H3. cbn [map] in H0, H1, H2, H3.
    apply Forall_cons in H0 as [H0 _]. apply Forall_cons in H1 as [H1 _].
    apply Forall_cons in H2 as [H2 _]. apply Forall_cons in H3 as [H3 _].
    split; lra. }
  rewrite get_zoom_level_defined in Hz by lra. injection Hz as <-.
  assert (Hzx : axis_zoom (maxx - minx) 500 <= 0) by (apply axis_zoom_nonpos; lra).
  pose proof (Rmin_l (axis_zoom (maxx - minx) 500) (axis_zoom (maxy - miny) 500)).
  split; lra.
Qed.

Lemma X15_view_zoom_below_min_zoom_witness :
  exists (w' : World) (layers : list Layer.t) (view_state : ViewState.t),
    pydeckCLI_main sample_args sample_world = (Ok tt, w')
    /\ files w' !! "output.html" = Some (Html (Deck.mk layers view_state))
    /\ ViewState.zoom view_state <= 0
    /\ ViewState.zoom view_state < IZR (ViewState.min_zoom view_state).
Proof.
  destruct (pydeckCLI_main_succeeds sample_args sample_world sample_collection)
    as [w' Hrun]; [reflexivity | discriminate |].
  destruct (X15_view_zoom_below_min_zoom sample_args sample_world w'
              sample_collection eq_refl)
    as (layers & view_state & Hout & Hz & Hm); [| exact Hrun |].
  { repeat constructor; cbn; lra. }
  exists w', layers, view_state.
  exact (conj Hrun (conj Hout (conj Hz Hm))).
Defined.

End RendererFurther.

(** ** Runs of the property inspector *)

Section InspectorFurther.

Lemma py_sorted_empty : py_sorted ∅ = [].
Proof. unfold py_sorted. by rewrite elements_empty. Qed.

Lemma property_set_no_properties (features : list Feature) :
  Forall (fun feature => properties feature = ∅) features ->
  property_set features = ∅.
Proof.
  intros Hall. apply set_eq. intros k. rewrite elem_of_property_set.
  split; [| by intros ?%not_elem_of_empty].
  intros (f & Hf & Hk). rewrite Forall_forall in Hall.
  rewrite (Hall f Hf), dom_empty_L in Hk.
  by apply not_elem_of_empty in Hk.
Qed.

(** X16. With [--properties], on a collection in which the property
    dict of every feature is empty, the inspector prints the header line
    alone and ends normally. *)
Theorem X16_inspector_header_only
    (args : PArgs.t) (w : World) (features : list Feature) :
  PArgs.properties args = true ->
  files w !! PArgs.input_file args = Some (GeoJSON features) ->
  Forall (fun feature => properties feature = ∅) features ->
  show_properties_main args w
  = (Ok tt, {| files := files w; stdout := stdout w ++ ["Available properties:"] |}).
Proof.
  intros Hflag Hf Hall. unfold show_properties_main. rewrite Hflag.
  rewrite show_properties_run, Hf. unfold list_properties.
  by rewrite (property_set_no_properties _ Hall), py_sorted_empty.
Qed.

Lemma X16_inspector_header_only_witness :
  show_properties_main (PArgs.mk "input.geojson" true) bare_world
  = (Ok tt, {| files := files bare_world;
               stdout := stdout bare_world ++ ["Available properties:"] |}).
Proof.
  apply (X16_inspector_header_only (PArgs.mk "input.geojson" true)
           bare_world bare_collection); [reflexivity | reflexivity |].
  repeat constructor.
Defined.

Lemma property_set_keys (features : list Feature) (k : string) :
  k ∈ property_set features
  <-> exists feature, feature ∈ features /\ is_Some (properties feature !! k).
Proof.
  rewrite elem_of_property_set.
  split; intros (f & Hf & Hk); exists f; (split; [done |]); by apply elem_of_dom.
Qed.

(** X17. The listing depends on nothing but which names occur as keys:
    two collections with the same keys overall are listed alike, whatever
    the order of the features, their number, their values and the way
    the keys are spread over them. *)
Theorem X17_listing_depends_on_keys (features features' : list Feature) :
  (forall k : string,
      (exists feature, feature ∈ features /\ is_Some (properties feature !! k))
      <-> (exists feature, feature ∈ features' /\ is_Some (properties feature !! k))) ->
  list_properties features = list_properties features'.
Proof.
  intros Hkeys. unfold list_properties. f_equal.
  apply set_eq. intros k. rewrite !property_set_keys. apply Hkeys.
Qed.

Lemma X17_listing_depends_on_keys_witness :
  list_properties sample_collection
  = list_properties
      [ mkFeature (geometry sample_rectangle) {[ "c" := JNull ]};
        mkFeature (geometry sample_square) {[ "b" := JStr "x"; "a" := JBool true ]};
        mkFeature (geometry sample_square) {[ "a" := JNull ]} ].
Proof.
  apply (X17_listing_depends_on_keys sample_collection).
  intros k. rewrite <- !property_set_keys.
  assert (E : property_set sample_collection
              = property_set
                  [ mkFeature (geometry sample_rectangle) {[ "c" := JNull ]};
                    mkFeature (geometry sample_square)
                      {[ "b" := JStr "x"; "a" := JBool true ]};
                    mkFeature (geometry sample_square) {[ "a" := JNull ]} ])
    by (by vm_compute).
  by rewrite E.
Defined.



(** X19. After the renderer has run to its end, the inspector pointed at
    any path other than the renderer's output file behaves as it would
    have before; pointed with [--properties] at the output file it raises
    [JSONDecodeError] and prints nothing. *)
Theorem X19_inspector_after_renderer
    (args : Args.t) (pargs : PArgs.t) (w w' : World) :
  pydeckCLI_main args w = (Ok tt, w') ->
  (PArgs.input_file pargs <> Args.output_file args ->
   fst (show_properties_main pargs w') = fst (show_properties_main pargs w)
   /\ stdout (snd (show_properties_main pargs w'))
      = stdout (snd (show_properties_main pargs w)))
  /\ (PArgs.input_file pargs = Args.output_file args ->
      PArgs.properties pargs = true ->
      show_properties_main pargs w' = (Raise JSONDecodeError, w')).
Proof.
  intros Hrun. unfold pydeckCLI_main in Hrun.
  apply create_map_success in Hrun as (features & box & c & zoom & _ & _ & _ & ->).
  unfold show_properties_main. split.
  - intros Hne. destruct (PArgs.properties pargs); [| done].
    rewrite !show_properties_run. cbn [files stdout].
    rewrite lookup_insert_ne by done.
    by destruct (files w !! PArgs.input_file pargs) as [[fs | d] |].
  - intros -> ->. rewrite show_properties_run. cbn [files].
    by rewrite lookup_insert_eq.
Qed.

Lemma X19_inspector_after_renderer_witness :
  exists w' : World,
    pydeckCLI_main sample_args sample_world = (Ok tt, w')
    /\ (fst (show_properties_main (PArgs.mk "input.geojson" true) w')
        = fst (show_properties_main (PArgs.mk "input.geojson" true) sample_world)
        /\ stdout (snd (show_properties_main (PArgs.mk "input.geojson" true) w'))
           = stdout (snd (show_properties_main (PArgs.mk "input.geojson" true)
                            sample_world)))
    /\ show_properties_main (PArgs.mk "output.html" true) w'
       = (Raise JSONDecodeError, w').
Proof.
  destruct (pydeckCLI_main_succeeds sample_args sample_world sample_collection)
    as [w' Hrun]; [reflexivity | discriminate |].
  exists w'. split; [exact Hrun |]. split.
  - apply (proj1 (X19_inspector_after_renderer sample_args
                    (PArgs.mk "input.geojson" true) sample_world w' Hrun)).
    discriminate.
  - apply (proj2 (X19_inspector_after_renderer sample_args
                    (PArgs.mk "output.html" true) sample_world w' Hrun));
      reflexivity.
Defined.

End InspectorFurther.

(** ** The argument parser of the map renderer *)

Section ParserFurther.
Local Open Scope R_scope.

Lemma py_bool_false_iff (text : string) : py_bool text = false <-> text = "".
Proof. destruct text; cbn; split; congruence. Qed.

(** The namespace of an accepted command line, field by field. *)
Lemma parse_args_Some (raw : Raw.t) (args : Args.t) :
  parse_args raw = Some args ->
  Args.input_file args = Raw.input_file raw
  /\ Args.output_file args = Raw.output_file raw
  /\ Args.elevation_property args = default "elevation" (Raw.elevation_property raw)
  /\ Args.auto_highlight args = bool_option true (Raw.auto_highlight raw)
  /\ Args.pickable args = bool_option true (Raw.pickable raw)
  /\ Args.stroked args = bool_option false (Raw.stroked raw)
  /\ Args.filled args = bool_option true (Raw.filled raw)
  /\ Args.wireframe args = bool_option true (Raw.wireframe raw)
  /\ Args.extruded args = bool_option true (Raw.extruded raw)
  /\ (Args.layer_type args = None /\ Raw.layer_type raw = None
      \/ Args.layer_type args = Some "GeoJsonLayer"
         /\ Raw.layer_type raw = Some "GeoJsonLayer").
Proof.
  unfold parse_args. intros H.
  destruct (Raw.layer_type raw) as [choice |] eqn:El.
  - destruct (String.eqb choice "GeoJsonLayer") eqn:Ec; [| discriminate].
    apply String.eqb_eq in Ec as ->. cbn in H. injection H as <-. cbn.
    repeat split; try reflexivity. by right.
  - cbn in H. injection H as <-. cbn. repeat split; try reflexivity. by left.
Qed.

(** X20. An option declared with [type=bool] is false only for the empty
    text: whatever non-empty text follows [--auto-highlight],
    [--pickable], [--stroked], [--filled], [--wireframe] or [--extruded],
    the word False included, the parsed value is true. *)
Theorem X20_bool_options_true_on_any_text (raw : Raw.t) (args : Args.t) :
  parse_args raw = Some args ->
  (forall text, Raw.auto_highlight raw = Some text ->
                (Args.auto_highlight args = false <-> text = ""))
  /\ (forall text, Raw.pickable raw = Some text ->
                   (Args.pickable args = false <-> text = ""))
  /\ (forall text, Raw.stroked raw = Some text ->
                   (Args.stroked args = false <-> text = ""))
  /\ (forall text, Raw.filled raw = Some text ->
                   (Args.filled args = false <-> text = ""))
  /\ (forall text, Raw.wireframe raw = Some text ->
                   (Args.wireframe args = false <-> text = ""))
  /\ (forall text, Raw.extruded raw = Some text ->
                   (Args.extruded args = false <-> text = "")).
Proof.
  intros Hp.
  destruct (parse_args_Some _ _ Hp)
    as (_ & _ & _ & Ha & Hpk & Hs & Hfi & Hw & He & _).
  split; [| split; [| split; [| split; [| split]]]]; intros text Hx.
  - rewrite Ha, Hx. apply py_bool_false_iff.
  - rewrite Hpk, Hx. apply py_bool_false_iff.
  - rewrite Hs, Hx. apply py_bool_false_iff.
  - rewrite Hfi, Hx. apply py_bool_false_iff.
  - rewrite Hw, Hx. apply py_bool_false_iff.
  - rewrite He, Hx. apply py_bool_false_iff.
Qed.

Lemma X20_bool_options_true_on_any_text_witness :
  exists args : Args.t,
    parse_args documented_command_line = Some args
    /\ (Args.stroked args = false <-> "False" = "")
    /\ (Args.wireframe args = false <-> "False" = "").
Proof.
  eexists. split; [reflexivity |].
  split.
  - apply (proj1 (proj2 (proj2
             (X20_bool_options_true_on_any_text documented_command_line _ eq_refl)))).
    reflexivity.
  - apply (proj1 (proj2 (proj2 (proj2 (proj2
             (X20_bool_options_true_on_any_text documented_command_line _ eq_refl)))))).
    reflexivity.
Defined.

(** X21. From the command line to the page: the layer written is
    extruded exactly when [--stroked] is given with a non-empty text, and
    its wireframe is off exactly when [--extruded] is given with the
    empty text. *)
Theorem X21_extrusion_follows_stroked_option
    (raw : Raw.t) (args : Args.t) (w w' : World) :
  parse_args raw = Some args ->
  pydeckCLI_main args w = (Ok tt, w') ->
  exists (layer : Layer.t) (view_state : ViewState.t),
    files w' !! Raw.output_file raw = Some (Html (Deck.mk [layer] view_state))
    /\ (Layer.extruded layer = true
        <-> exists text, Raw.stroked raw = Some text /\ text <> "")
    /\ (Layer.wireframe layer = false <-> Raw.extruded raw = Some "").
Proof.
  intros Hp Hrun.
  destruct (parse_args_Some _ _ Hp)
    as (_ & Ho & _ & _ & _ & Hs & _ & _ & He & _).
  unfold pydeckCLI_main in Hrun.
  apply create_map_success in Hrun as (features & box & c & zoom & _ & _ & _ & ->).
  eexists _, _. split; [cbn [files]; rewrite <- Ho; apply lookup_insert_eq |].
  cbn [Layer.extruded Layer.wireframe]. rewrite Hs, He. split.
  - destruct (Raw.stroked raw) as [text |]; cbn.
    + destruct text; cbn; split.
      * discriminate.
      * intros (text & [= <-] & Hne). done.
      * intros _. eexists. split; [reflexivity | discriminate].
      * done.
    + split; [discriminate | intros (text & Hn & _); discriminate].
  - destruct (Raw.extruded raw) as [text |]; cbn.
    + rewrite py_bool_false_iff. split; [by intros -> | by intros [= ->]].
    + split; discriminate.
Qed.

Lemma X21_extrusion_follows_stroked_option_witness :
  exists (args : Args.t) (w' : World) (layer : Layer.t) (view_state : ViewState.t),
    parse_args documented_command_line = Some args
    /\ pydeckCLI_main args sample_world = (Ok tt, w')
    /\ files w' !! "output.html" = Some (Html (Deck.mk [layer] view_state))
    /\ (Layer.extruded layer = true
        <-> exists text, Some "False" = Some text /\ text <> "")
    /\ (Layer.wireframe layer = false <-> Some "True" = Some "").
Proof.
  assert (Hp : exists args, parse_args documented_command_line = Some args
                            /\ Args.input_file args = "input.geojson").
  { eexists. split; reflexivity. }
  destruct Hp as (args & Hp & Hi).
  destruct (pydeckCLI_main_succeeds args sample_world sample_collection)
    as [w' Hrun]; [by rewrite Hi | discriminate |].
  destruct (X21_extrusion_follows_stroked_option
              documented_command_line args sample_world w' Hp Hrun)
    as (layer & view_state & Hout & He & Hw).
  exists args, w', layer, view_state.
  exact (conj Hp (conj Hrun (conj Hout (conj He Hw)))).
Defined.

(** X22. A command line that gives the two paths and no option is
    accepted, and the page a run writes for it holds a layer without
    type that is not extruded but stroked, filled and in wireframe, with
    the default colours and the accessor [properties.elevation], under a
    view pitched at 45 degrees with bearing 0. *)
Theorem X22_defaults_reach_the_page (input_file output_file : string) :
  exists args : Args.t,
    parse_args (bare_command_line input_file output_file) = Some args
    /\ (forall w w' : World,
        pydeckCLI_main args w = (Ok tt, w') ->
        exists (layer : Layer.t) (view_state : ViewState.t),
          files w' !! output_file = Some (Html (Deck.mk [layer] view_state))
          /\ Layer.type layer = None
          /\ Layer.extruded layer = false
          /\ Layer.stroked layer = true
          /\ Layer.filled layer = true
          /\ Layer.wireframe layer = true
          /\ Layer.auto_highlight layer = true
          /\ Layer.pickable layer = true
          /\ Layer.get_fill_color layer = [255; 0; 0]%Z
          /\ Layer.get_line_color layer = [0; 0; 255]%Z
          /\ Layer.get_elevation layer = "properties.elevation"
          /\ Layer.elevation_scale layer = 1
          /\ Layer.coverage layer = 1
          /\ ViewState.pitch view_state = 45
          /\ ViewState.bearing view_state = 0).
Proof.
  eexists. split; [reflexivity |].
  intros w w' Hrun. unfold pydeckCLI_main in Hrun.
  apply create_map_success in Hrun as (features & box & c & zoom & _ & _ & _ & ->).
  eexists _, _. split; [cbn [files]; apply lookup_insert_eq |].
  by cbn.
Qed.

Lemma X22_defaults_reach_the_page_witness :
  exists (args : Args.t) (w' : World) (layer : Layer.t) (view_state : ViewState.t),
    parse_args (bare_command_line "input.geojson" "output.html") = Some args
    /\ pydeckCLI_main args sample_world = (Ok tt, w')
    /\ files w' !! "output.html" = Some (Html (Deck.mk [layer] view_state))
    /\ Layer.extruded layer = false
    /\ Layer.stroked layer = true.
Proof.
  destruct (X22_defaults_reach_the_page "input.geojson" "output.html")
    as (args & Hp & Hpage).
  destruct (pydeckCLI_main_succeeds args sample_world sample_collection)
    as [w' Hrun].
  { cbn in Hp. by injection Hp as <-. }
  { discriminate. }
  destruct (Hpage sample_world w' Hrun) as (layer & view_state & Hout & _ & He & Hs & _).
  exists args, w', layer, view_state.
  exact (conj Hp (conj Hrun (conj Hout (conj He Hs)))).
Defined.

End ParserFurther.
